(** * The pattoo linux agent installer: setup/linux_agent_installation.py

    A shallow embedding of the installer script and the properties of its
    command line, its prerequisite checks, its environment resolution and
    its orchestration of the installation steps.

    The script is a sequential procedure with effects: it writes to the
    standard streams, logs, calls out to external collaborators and may
    leave through [sys.exit] or an uncaught exception.  A run is modelled
    as the list of the effects it performs, in order, together with the
    way it ends.  What a run depends on (argument vector, invoking user,
    working directory, user database, ...) is collected in a record
    [world].

    The model starts where [main] starts.  The statements the module runs
    when it is loaded (lines 10-41: the check of the directory the script is
    installed in, [PATTOO_CONFIGDIR], the imports) have been executed;
    [ROOT_DIR] and [default_path] are the values they computed. *)

From Stdlib Require Import String Ascii List Bool ZArith Lia.
Import ListNotations.
Open Scope string_scope.
Open Scope list_scope.

(** ** Effects *)

Inductive stream := stdout | stderr.

(** The parsers built by the script (lines 91-99 and 119-214): the top-level
    parser, the [install] parser below it and the four parsers below
    [install]. *)
Inductive parser_id :=
| p_main
| p_install
| p_all
| p_configuration
| p_pip
| p_systemd.

(** The messages argparse hands to [error]. *)
Inductive arg_error :=
| invalid_choice (dest value : string)
| unrecognized_arguments (extras : list string)
| other_error (message : string).

(** What is written to a stream: a literal of the script, the banner
    ['\nERROR: {}\n\n'.format(message)] of [_Parser.error], or the help text
    [format_help()] of a parser. *)
Inductive text :=
| Lit (s : string)
| ErrorBanner (message : arg_error)
| HelpText (p : parser_id).

(** Calls that leave the script: the helper [shared.run_script], the
    environment setup and the three installation steps. *)
Inductive call :=
| shared_run_script (cli_string : string)
| environment_setup (venv_dir : string)
| configure_install (daemon_list : list string) (pattoo_home : string)
| packages_install (root_dir venv_dir : string) (verbose : bool)
| systemd_install (daemon_list : list string)
                  (template_dir installation_dir : string).

Inductive event :=
| Output (f : stream) (t : text)
| Log (message : string)
| Call (c : call).

Inductive exception :=
| KeyError
| ModuleNotFoundError
| OtherException (name : string).

(** How a computation ends: it returns a value, leaves through
    [sys.exit(status)], or raises an exception. *)
Inductive result (A : Type) :=
| Ret (a : A)
| Exit (status : Z)
| Raise (e : exception).

Arguments Ret {A} a.
Arguments Exit {A} status.
Arguments Raise {A} e.

(** A computation: the effects performed so far and the way it ended. *)
Definition M (A : Type) : Type := (list event * result A)%type.

Definition ret {A} (a : A) : M A := ([], Ret a).

Definition bind {A B} (m : M A) (k : A -> M B) : M B :=
  match m with
  | (t, Ret a) => let (t', r) := k a in (t ++ t', r)
  | (t, Exit n) => (t, Exit n)
  | (t, Raise e) => (t, Raise e)
  end.

Declare Scope py_scope.
Delimit Scope py_scope with py.
Notation "x <- m ;; k" := (bind m (fun x => k))
  (at level 100, m at next level, right associativity) : py_scope.
Notation "m ;; k" := (bind m (fun _ => k))
  (at level 100, right associativity) : py_scope.
Open Scope py_scope.

Definition emit (e : event) : M unit := ([e], Ret tt).
Definition sys_exit {A} (status : Z) : M A := ([], Exit status).
Definition raise {A} (e : exception) : M A := ([], Raise e).

Definition exception_eqb (a b : exception) : bool :=
  match a, b with
  | KeyError, KeyError => true
  | ModuleNotFoundError, ModuleNotFoundError => true
  | OtherException x, OtherException y => String.eqb x y
  | _, _ => false
  end.

(** [try: body / except exn: handler] *)
Definition try_except {A} (body : M A) (exn : exception) (handler : M A)
  : M A :=
  match body with
  | (t, Raise e) =>
      if exception_eqb e exn then let (t', r) := handler in (t ++ t', r)
      else (t, Raise e)
  | other => other
  end.

Definition LF : string := String (ascii_of_nat 10) "".

(** [print(s)]: the string and a newline on standard output. *)
Definition printed (s : string) : event := Output stdout (Lit (s ++ LF)).
Definition print (s : string) : M unit := emit (printed s).

(** [sys.stderr.write(s)] *)
Definition stderr_write (t : text) : M unit := emit (Output stderr t).

(** ** The world a run depends on *)

(** An entry of the user database, as [pwd.getpwnam] returns it. *)
Record passwd_entry := { pw_name : string; pw_dir : string }.

(** The result of argparse's [parse_args]: a namespace, the help action
    ([print_help()] of the parser that saw the flag, then exit status 0), or
    a call of [error(message)] on one of the parsers. *)
Record Namespace := {
  action : option string;       (* [None] when no subcommand was given *)
  qualifier : option string;    (* read only when [action] is [install] *)
  verbose : bool                (* declared, with default [False], by the
                                   parsers of [all] and [pip], the only
                                   qualifiers under which it is read *)
}.

Inductive parse_outcome :=
| Parsed (ns : Namespace)
| HelpRequested (p : parser_id)
| ArgumentError (p : parser_id) (message : arg_error).

Record world := {
  sys_argv : list string;             (* sys.argv; it holds at least the
                                         name of the script in every run
                                         that reaches [main], since line 11
                                         reads [sys.argv[0]] *)
  getuser : string;                   (* getpass.getuser() *)
  getcwd : string;                    (* os.getcwd() *)
  passwd : list passwd_entry;         (* the user database read by pwd *)
  expanduser : string;                (* os.path.expanduser('~') *)
  virtualenv_importable : bool;       (* does [import virtualenv] succeed *)
  ROOT_DIR : string;                  (* module constant, line 12 *)
  (* how a call of an external collaborator ends *)
  collaborator : call -> result unit;
  (* argparse on argument vectors with option-like strings that are not
     option strings declared by the script (abbreviations, [--opt=value],
     clustered short options, [--], ...) *)
  argparse_other : list string -> parse_outcome
}.

(** A call of an external collaborator: it is recorded, and the run goes on
    only if the collaborator returns. *)
Definition invoke (w : world) (c : call) : M unit :=
  ([Call c], collaborator w c).

(** Modelled from the spec: [shared.log] of [_pattoo_agent_linux/shared.py],
    a module of the repository whose source is missing here.  The
    specification (4.2, 7, 9) says that a failed prerequisite is signalled
    via logging and that execution continues: the message is logged and
    the call returns. *)
Definition shared_log (message : string) : M unit := emit (Log message).

(** [pwd.getpwnam(name)]: the first entry with that name, [KeyError] if there
    is none. *)
Definition getpwnam (db : list passwd_entry) (name : string)
  : M passwd_entry :=
  match find (fun e => String.eqb (pw_name e) name) db with
  | Some e => ret e
  | None => raise KeyError
  end.

(** [import virtualenv] *)
Definition import_virtualenv (w : world) : M unit :=
  if virtualenv_importable w then ret tt else raise ModuleNotFoundError.

(** [os.path.join(a, b)] of posixpath. *)
Definition endswith (s suffix : string) : bool :=
  let n := String.length s in
  let k := String.length suffix in
  Nat.leb k n && String.eqb (substring (n - k) k s) suffix.

Definition path_join (a b : string) : string :=
  if prefix "/" b then b
  else if String.eqb a "" || endswith a "/" then a ++ b
  else a ++ "/" ++ b.

(** Line 31: [default_path]. *)
Definition default_path (w : world) : string :=
  expanduser w ++ "/.local/lib/python3.6/site-packages".

(** ** Prerequisite checks (lines 217-247) *)

Definition msg_not_root : string :=
  "You are currently not running the script as root.Run as root to continue".

Definition msg_home_directory : string :=
  "You cloned the repository in a home related directory, please clone in a non-home directory to continue".

Definition msg_virtualenv : string :=
  "virtualenv is not installed. Installing virtualenv".

(** The command of lines 246-247. *)
Definition pip3_install_virtualenv (w : world) : call :=
  shared_run_script ("pip3 install virtualenv -t " ++ default_path w).

Definition when (b : bool) (m : M unit) : M unit := if b then m else ret tt.

Definition installation_checks (w : world) : M unit :=
  when (negb (String.eqb (getuser w) "travis"))
    (when (negb (String.eqb (getuser w) "root")) (shared_log msg_not_root) ;;
     when (prefix "/home" (getcwd w)) (shared_log msg_home_directory) ;;
     try_except (import_virtualenv w) ModuleNotFoundError
       (print msg_virtualenv ;;
        invoke w (pip3_install_virtualenv w))).

(** ** Environment resolution (lines 250-271) *)

Definition get_pattoo_home (w : world) : M string :=
  pattoo_home <- try_except
                   (e <- getpwnam (passwd w) "pattoo" ;; ret (pw_dir e))
                   KeyError
                   (ret "/home/pattoo") ;;
  let pattoo_home :=
    if String.eqb pattoo_home "/nonexistent" then "/home/pattoo"
    else pattoo_home in
  ret pattoo_home.

(** ** The command line (lines 44-214)

    [Parser.args] builds a top-level [_Parser] with one subcommand,
    [install] (destination [action]); [_Install] gives the [install] parser
    the four subcommands [all], [configuration], [pip] and [systemd]
    (destination [qualifier]), registered in the order of [dir(self)];
    [all] and [pip] declare the [store_true] flag [--verbose].  Every parser
    is a [_Parser], because [add_subparsers] creates subparsers of the
    class of the parser it is called on, and every parser has argparse's
    help flag [-h]/[--help].

    argparse is modelled on the argument vectors whose strings are plain
    words (they do not begin with [-]) or one of the declared option
    strings; its answer on the others is the field [argparse_other] of the
    world. *)

Definition is_help_flag (s : string) : bool :=
  String.eqb s "-h" || String.eqb s "--help".

Definition declared_option (s : string) : bool :=
  is_help_flag s || String.eqb s "--verbose".

Definition modelled_argument (s : string) : bool :=
  negb (prefix "-" s) || declared_option s.

Definition subparsers (p : parser_id) : list (string * parser_id) :=
  match p with
  | p_main => [("install", p_install)]
  | p_install => [("all", p_all); ("configuration", p_configuration);
                  ("pip", p_pip); ("systemd", p_systemd)]
  | _ => []
  end.

Definition has_verbose (p : parser_id) : bool :=
  match p with
  | p_all | p_pip => true
  | _ => false
  end.

Fixpoint choice (name : string) (choices : list (string * parser_id))
  : option parser_id :=
  match choices with
  | [] => None
  | (n, p) :: rest => if String.eqb n name then Some p else choice name rest
  end.

(** The result of [parse_known_args] of one parser: the namespace and the
    strings it did not recognise, or the help action, or an error. *)
Inductive known_args :=
| Known (ns : Namespace) (extras : list string)
| Help (p : parser_id)
| Error (p : parser_id) (message : arg_error).

(** A parser without positionals ([all], [configuration], [pip],
    [systemd]): flags are taken from left to right, the help flag prints
    and exits at once, everything else is left unrecognised. *)
Fixpoint parse_leaf (p : parser_id) (args : list string) (v : bool)
  (extras : list string) : known_args :=
  match args with
  | [] => Known {| action := None; qualifier := None; verbose := v |} extras
  | a :: rest =>
      if is_help_flag a then Help p
      else if has_verbose p && String.eqb a "--verbose"
           then parse_leaf p rest true extras
           else parse_leaf p rest v (extras ++ [a])
  end.

(** The [install] parser: option-like strings before the first plain word
    are its own (help, or unrecognised); the first plain word selects the
    subparser, which gets everything after it.  A plain word that is no
    choice is an error of this parser; no plain word at all leaves
    [qualifier] at [None]. *)
Fixpoint parse_install (args : list string) (extras : list string)
  : known_args :=
  match args with
  | [] =>
      Known {| action := None; qualifier := None; verbose := false |} extras
  | a :: rest =>
      if is_help_flag a then Help p_install
      else if prefix "-" a then parse_install rest (extras ++ [a])
      else match choice a (subparsers p_install) with
           | None => Error p_install (invalid_choice "qualifier" a)
           | Some p =>
               match parse_leaf p rest false [] with
               | Known ns sub_extras =>
                   Known {| action := None; qualifier := Some a;
                            verbose := verbose ns |} (extras ++ sub_extras)
               | other => other
               end
           end
  end.

(** The top-level parser, in the same way. *)
Fixpoint parse_main (args : list string) (extras : list string)
  : known_args :=
  match args with
  | [] =>
      Known {| action := None; qualifier := None; verbose := false |} extras
  | a :: rest =>
      if is_help_flag a then Help p_main
      else if prefix "-" a then parse_main rest (extras ++ [a])
      else match choice a (subparsers p_main) with
           | None => Error p_main (invalid_choice "action" a)
           | Some _ =>
               match parse_install rest [] with
               | Known ns sub_extras =>
                   Known {| action := Some a; qualifier := qualifier ns;
                            verbose := verbose ns |} (extras ++ sub_extras)
               | other => other
               end
           end
  end.

(** [parser.parse_args()]: unrecognised strings are an error of the
    top-level parser. *)
Definition parse_args (w : world) (args : list string) : parse_outcome :=
  if forallb modelled_argument args then
    match parse_main args [] with
    | Known ns [] => Parsed ns
    | Known ns extras => ArgumentError p_main (unrecognized_arguments extras)
    | Help p => HelpRequested p
    | Error p message => ArgumentError p message
    end
  else argparse_other w args.

(** [parser.print_help(file)]: argparse writes to [sys.stdout] when no file
    is given. *)
Definition print_help (self : parser_id) (file : option stream) : M unit :=
  emit (Output (match file with Some f => f | None => stdout end)
               (HelpText self)).

(** Lines 47-62: [_Parser.error]. *)
Definition _Parser_error {A} (self : parser_id) (message : arg_error) : M A :=
  stderr_write (ErrorBanner message) ;;
  print_help self None ;;
  sys_exit 2.

(** [parser.parse_args()] with its effects: the help action prints the help
    of its parser and exits with status 0, an error goes to [error] of the
    parser that found it. *)
Definition _Parser_parse_args (w : world) : M Namespace :=
  match parse_args w (tl (sys_argv w)) with
  | Parsed ns => ret ns
  | HelpRequested p => print_help p None ;; sys_exit 0
  | ArgumentError p message => _Parser_error p message
  end.

(** Lines 76-110: [Parser.args].  [sys.argv] holds at least the name of the
    script here: an empty [sys.argv] does not get past line 11, nor past
    the construction of the parser at line 91, which reads [sys.argv[0]]
    for the name of the program. *)
Definition Parser_args (w : world) : M (Namespace * parser_id) :=
  if Nat.eqb (List.length (sys_argv w)) 1 then
    print_help p_main (Some stderr) ;;
    sys_exit 1
  else
    _args <- _Parser_parse_args w ;;
    ret (_args, p_main).

(** ** The orchestrator (lines 274-347) *)

Definition daemon_list : list string :=
  ["pattoo_agent_linux_autonomousd";
   "pattoo_agent_linux_spoked";
   "pattoo_agent_linux_hubd"].

Definition template_dir (w : world) : string :=
  path_join (ROOT_DIR w) "setup/systemd/system".

(** The three values lines 296-307 compute. *)
Record directories := {
  pattoo_home : string;
  venv_dir : string;
  installation_dir : string
}.

(** [x == 'literal'] for an attribute that may be [None]. *)
Definition is_str (x : option string) (s : string) : bool :=
  match x with
  | Some y => String.eqb y s
  | None => false
  end.

(** Lines 293-307: the checks and the virtual environment. *)
Definition main_environment (w : world) : M directories :=
  installation_checks w ;;
  if negb (String.eqb (getuser w) "travis") then
    pattoo_home <- get_pattoo_home w ;;
    let venv_dir := path_join pattoo_home "pattoo-venv" in
    invoke w (environment_setup venv_dir) ;;
    let venv_interpreter := path_join venv_dir "bin/python3" in
    let installation_dir :=
      (venv_interpreter ++ " " ++ ROOT_DIR w)%string in
    ret {| pattoo_home := pattoo_home; venv_dir := venv_dir;
           installation_dir := installation_dir |}
  else
    ret {| pattoo_home := path_join (expanduser w) "pattoo";
           venv_dir := default_path w;
           installation_dir := ROOT_DIR w |}.

(** Lines 309-347: the command line and the installation steps. *)
Definition main_cli (w : world) (d : directories) : M unit :=
  r <- Parser_args w ;;
  let (args, parser) := r in
  if is_str (action args) "install" then
    (if is_str (qualifier args) "all" then
       print "Installing everything" ;;
       invoke w (configure_install daemon_list (pattoo_home d)) ;;
       invoke w (packages_install (ROOT_DIR w) (venv_dir d) (verbose args)) ;;
       invoke w (systemd_install daemon_list (template_dir w)
                                 (installation_dir d))
     else if is_str (qualifier args) "configuration" then
       print "Installing configuration" ;;
       invoke w (configure_install daemon_list (pattoo_home d))
     else if is_str (qualifier args) "pip" then
       print "Installing pip packages" ;;
       invoke w (packages_install (ROOT_DIR w) (venv_dir d) (verbose args))
     else if is_str (qualifier args) "systemd" then
       print "Installing and running system daemons" ;;
       invoke w (systemd_install daemon_list (template_dir w)
                                 (installation_dir d))
     else
       print_help parser (Some stderr) ;;
       sys_exit 1) ;;
    print "Done"
  else ret tt.

Definition main (w : world) : M unit :=
  d <- main_environment w ;;
  main_cli w d.

(** The exit status of the process for a run of [main]. *)
Definition exit_status (r : result unit) : Z :=
  match r with
  | Ret _ => 0
  | Exit status => status
  | Raise _ => 1
  end.


(** ** Observations on a run *)

(** The collaborator calls of a trace, in order. *)
Definition calls (t : list event) : list call :=
  flat_map (fun e => match e with Call c => [c] | _ => [] end) t.

(** The three installation steps of the orchestrator. *)
Definition is_installer (c : call) : bool :=
  match c with
  | configure_install _ _ | packages_install _ _ _ | systemd_install _ _ _ =>
      true
  | _ => false
  end.

Definition installer_calls (t : list event) : list call :=
  filter is_installer (calls t).

Definition is_log (e : event) : bool :=
  match e with
  | Log _ => true
  | _ => false
  end.

(** The literal completion message of line 347. *)
Definition done : event := printed "Done".

(** ** Worlds used as concrete inputs *)

Definition returns : call -> result unit := fun _ => Ret tt.

Definition no_other : list string -> parse_outcome :=
  fun _ => ArgumentError p_main (other_error "not modelled").

(** Root on a host without a [pattoo] user, in a checkout under [/opt]. *)
Definition root_world (args : list string) : world :=
  {| sys_argv := "setup/linux_agent_installation.py" :: args;
     getuser := "root";
     getcwd := "/opt/pattoo-agent-linux";
     passwd := [{| pw_name := "root"; pw_dir := "/root" |}];
     expanduser := "/root";
     virtualenv_importable := true;
     ROOT_DIR := "/opt/pattoo-agent-linux";
     collaborator := returns;
     argparse_other := no_other |}.

(** The CI account. *)
Definition travis_world (args : list string) : world :=
  {| sys_argv := "setup/linux_agent_installation.py" :: args;
     getuser := "travis";
     getcwd := "/home/travis/build/pattoo-agent-linux";
     passwd := [{| pw_name := "travis"; pw_dir := "/home/travis" |}];
     expanduser := "/home/travis";
     virtualenv_importable := true;
     ROOT_DIR := "/home/travis/build/pattoo-agent-linux";
     collaborator := returns;
     argparse_other := no_other |}.

(** An ordinary user in a checkout under their home directory, on a host
    where virtualenv is or is not importable. *)
Definition alice_world (venv : bool) (args : list string) : world :=
  {| sys_argv := "setup/linux_agent_installation.py" :: args;
     getuser := "alice";
     getcwd := "/home/alice/pattoo-agent-linux";
     passwd := [{| pw_name := "alice"; pw_dir := "/home/alice" |};
                {| pw_name := "pattoo"; pw_dir := "/nonexistent" |}];
     expanduser := "/home/alice";
     virtualenv_importable := venv;
     ROOT_DIR := "/home/alice/pattoo-agent-linux";
     collaborator := returns;
     argparse_other := no_other |}.

(** A host where the setup of the virtual environment fails and ends the
    process with status 2. *)
Definition failing_setup_world (args : list string) : world :=
  {| sys_argv := "setup/linux_agent_installation.py" :: args;
     getuser := "root";
     getcwd := "/opt/pattoo-agent-linux";
     passwd := [{| pw_name := "pattoo"; pw_dir := "/opt/pattoo" |}];
     expanduser := "/root";
     virtualenv_importable := true;
     ROOT_DIR := "/opt/pattoo-agent-linux";
     collaborator := fun c => match c with
                              | environment_setup _ => Exit 2
                              | _ => Ret tt
                              end;
     argparse_other := no_other |}.

(** A host where the package installation fails. *)
Definition failing_pip_world (args : list string) : world :=
  {| sys_argv := "setup/linux_agent_installation.py" :: args;
     getuser := "root";
     getcwd := "/opt/pattoo-agent-linux";
     passwd := [{| pw_name := "pattoo"; pw_dir := "/opt/pattoo" |}];
     expanduser := "/root";
     virtualenv_importable := true;
     ROOT_DIR := "/opt/pattoo-agent-linux";
     collaborator := fun c => match c with
                              | packages_install _ _ _ =>
                                  Raise (OtherException "CalledProcessError")
                              | _ => Ret tt
                              end;
     argparse_other := no_other |}.

(** ** Notions used in the statements *)

(** The virtualenv check of lines 241-247 on its own. *)
Definition virtualenv_check (w : world) : M unit :=
  try_except (import_virtualenv w) ModuleNotFoundError
    (print msg_virtualenv ;; invoke w (pip3_install_virtualenv w)).

(** The two log messages of lines 232-239, as far as they apply. *)
Definition precondition_logs (w : world) : list event :=
  (if negb (String.eqb (getuser w) "root") then [Log msg_not_root] else [])
  ++ (if prefix "/home" (getcwd w) then [Log msg_home_directory] else []).

(** The home directory [get_pattoo_home] settles on, as a function of the
    user database. *)
Definition resolved_home (w : world) : string :=
  match find (fun e => String.eqb (pw_name e) "pattoo") (passwd w) with
  | Some e =>
      if String.eqb (pw_dir e) "/nonexistent" then "/home/pattoo"
      else pw_dir e
  | None => "/home/pattoo"
  end.

(** The virtual environment in the resolved home (line 299). *)
Definition venv_of (w : world) : string :=
  path_join (resolved_home w) "pattoo-venv".

(** The qualifiers with installation steps. *)
Definition valid_qualifier (q : option string) : bool :=
  is_str q "all" || is_str q "configuration" || is_str q "pip"
  || is_str q "systemd".

(** The table of section 4.4 of the specification: the steps of each
    qualifier, in order, and the line announcing them. *)
Definition spec_steps (w : world) (d : directories) (v : bool) (q : string)
  : list call :=
  let write_configuration := configure_install daemon_list (pattoo_home d) in
  let install_packages := packages_install (ROOT_DIR w) (venv_dir d) v in
  let install_units :=
    systemd_install daemon_list (template_dir w) (installation_dir d) in
  if String.eqb q "all" then
    [write_configuration; install_packages; install_units]
  else if String.eqb q "configuration" then [write_configuration]
  else if String.eqb q "pip" then [install_packages]
  else if String.eqb q "systemd" then [install_units]
  else [].

Definition announcement (q : string) : string :=
  if String.eqb q "all" then "Installing everything"
  else if String.eqb q "configuration" then "Installing configuration"
  else if String.eqb q "pip" then "Installing pip packages"
  else "Installing and running system daemons".

(** Steps run one after the other until one does not return: the calls
    made, and the way the sequence ends. *)
Fixpoint run_steps (w : world) (cs : list call) : list call * result unit :=
  match cs with
  | [] => ([], Ret tt)
  | c :: rest =>
      match collaborator w c with
      | Ret _ => let (l, r) := run_steps w rest in (c :: l, r)
      | failure => ([c], failure)
      end
  end.

(** The package installation among the calls of a run. *)
Definition is_packages_install (c : call) : bool :=
  match c with
  | packages_install _ _ _ => true
  | _ => false
  end.

Definition is_configure_install (c : call) : bool :=
  match c with
  | configure_install _ _ => true
  | _ => false
  end.

(** ** Setting up the python path (lines 10-25)

    The first statements the module runs when it is loaded: the script
    must lie in a directory [.../pattoo-agent-linux/setup]; if it does, the
    root directory is appended to [sys.path] and [PATTOO_CONFIGDIR] gets a
    default unless it is set; if not, the script says so and exits. *)

(** [os.environ] and [sys.path], the state these statements change. *)
Record module_state := {
  sys_path : list string;
  environ : string -> option string
}.

(** [os.environ[key]]: the value, [KeyError] if the variable is not set. *)
Definition environ_get (env : string -> option string) (key : string)
  : M string :=
  match env key with
  | Some value => ret value
  | None => raise KeyError
  end.

(** [os.environ[key] = value] *)
Definition environ_set (env : string -> option string) (key value : string)
  : string -> option string :=
  fun k => if String.eqb k key then Some value else env k.

(** Line 13, with [os.sep] the slash of posix. *)
Definition _EXPECTED : string := "/pattoo-agent-linux/setup".

Definition DQUOTE : string := String (ascii_of_nat 34) "".

(** The message of lines 22-24. *)
Definition msg_wrong_directory : string :=
  "This script is not installed in the " ++ DQUOTE ++ _EXPECTED ++ DQUOTE
  ++ " directory. Please fix.".

(** Lines 14-25, for [EXEC_DIR] the directory of the script and [ROOT_DIR]
    its parent. *)
Definition python_path_setup (EXEC_DIR ROOT_DIR : string) (st : module_state)
  : M module_state :=
  if endswith EXEC_DIR _EXPECTED then
    let st := {| sys_path := sys_path st ++ [ROOT_DIR];
                 environ := environ st |} in
    try_except
      (_ <- environ_get (environ st) "PATTOO_CONFIGDIR" ;; ret st)
      KeyError
      (ret {| sys_path := sys_path st;
              environ := environ_set (environ st) "PATTOO_CONFIGDIR"
                                     "/etc/pattoo" |})
  else
    print msg_wrong_directory ;;
    sys_exit 2.

(** ** The registration of the qualifiers (lines 113-214)

    [_Install.__init__] goes through [dir(self)], the names of the
    attributes of the object in alphabetical order, and calls every
    attribute that is a method and whose name does not begin with an
    underscore.  Each of the four methods adds one parser to the
    subparsers of [install]. *)

(** What a call of such a method adds: a parser under a name, with or
    without the flag [--verbose]. *)
Record added_parser := {
  parser_name : string;
  declares_verbose : bool
}.

(** An attribute is a method ([ismethod] holds), with what calling it adds,
    or it is something else. *)
Inductive attribute :=
| a_method (adds : added_parser)
| a_value.

(** Lines 127-139. *)
Definition _Install_init (dir_self : list (string * attribute))
  : list added_parser :=
  flat_map
    (fun na =>
       match snd na with
       | a_method adds => if prefix "_" (fst na) then [] else [adds]
       | a_value => []
       end)
    dir_self.

(** The attributes of [_Install] that the class body and line 124 define
    (lines 124 and 141-214), in the order of [dir]. *)
Definition _Install_public : list (string * attribute) :=
  [("all", a_method {| parser_name := "all"; declares_verbose := true |});
   ("configuration",
    a_method {| parser_name := "configuration"; declares_verbose := false |});
   ("pip", a_method {| parser_name := "pip"; declares_verbose := true |});
   ("subparsers", a_value);
   ("systemd",
    a_method {| parser_name := "systemd"; declares_verbose := false |})].

(** ** Further notions used in the statements *)

(** Two computations end in the same abnormal way. *)
Definition same_failure {A B} (r : result A) (r' : result B) : Prop :=
  match r, r' with
  | Exit n, Exit n' => n = n'
  | Raise e, Raise e' => e = e'
  | _, _ => False
  end.

(** A computation passes the failure of a collaborator on at once: a call
    that does not return is its last effect and decides how it ends; and
    if it returns, every call it made returned. *)
Definition fail_fast {A} (w : world) (m : M A) : Prop :=
  (forall c, In (Call c) (fst m) -> collaborator w c <> Ret tt ->
             (exists t, fst m = t ++ [Call c])
             /\ same_failure (snd m) (collaborator w c))
  /\ (forall a, snd m = Ret a ->
                forall c, In (Call c) (fst m) -> collaborator w c = Ret tt).

(** The way a run ends when no collaborator fails, read off the command
    line alone. *)
Definition cli_result (w : world) : result unit :=
  if Nat.eqb (List.length (sys_argv w)) 1 then Exit 1
  else match parse_args w (tl (sys_argv w)) with
       | Parsed ns =>
           if is_str (action ns) "install" then
             if valid_qualifier (qualifier ns) then Ret tt else Exit 1
           else Ret tt
       | HelpRequested _ => Exit 0
       | ArgumentError _ _ => Exit 2
       end.



(** ** The model of argparse on some argument vectors *)

Example parse_install_all (w : world) :
  parse_args w ["install"; "all"] =
    Parsed {| action := Some "install"; qualifier := Some "all";
              verbose := false |}.
Proof. reflexivity. Qed.

Example parse_install_all_verbose (w : world) :
  parse_args w ["install"; "all"; "--verbose"] =
    Parsed {| action := Some "install"; qualifier := Some "all";
              verbose := true |}.
Proof. reflexivity. Qed.

Example parse_install_alone (w : world) :
  parse_args w ["install"] =
    Parsed {| action := Some "install"; qualifier := None;
              verbose := false |}.
Proof. reflexivity. Qed.

Example parse_configuration_verbose (w : world) :
  parse_args w ["install"; "configuration"; "--verbose"] =
    ArgumentError p_main (unrecognized_arguments ["--verbose"]).
Proof. reflexivity. Qed.

Example parse_flag_before_qualifier (w : world) :
  parse_args w ["install"; "--verbose"; "all"] =
    ArgumentError p_main (unrecognized_arguments ["--verbose"]).
Proof. reflexivity. Qed.

Example parse_extra_word (w : world) :
  parse_args w ["install"; "all"; "extra"; "--verbose"] =
    ArgumentError p_main (unrecognized_arguments ["extra"]).
Proof. reflexivity. Qed.

Example parse_help_after_extra (w : world) :
  parse_args w ["install"; "all"; "extra"; "-h"] = HelpRequested p_all.
Proof. reflexivity. Qed.

Example parse_unknown_subcommand (w : world) :
  parse_args w ["remove"; "-h"] =
    ArgumentError p_main (invalid_choice "action" "remove").
Proof. reflexivity. Qed.

Example parse_unknown_qualifier_with_flag (w : world) :
  parse_args w ["install"; "foo"; "--help"] =
    ArgumentError p_install (invalid_choice "qualifier" "foo").
Proof. reflexivity. Qed.

(** ** Laws of the computations *)

Lemma bind_Ret {A B} (t : list event) (a : A) (k : A -> M B) :
  bind (t, Ret a) k = (t ++ fst (k a), snd (k a)).
Proof. unfold bind. destruct (k a); reflexivity. Qed.

Lemma ret_bind {A B} (a : A) (k : A -> M B) : bind (ret a) k = k a.
Proof. unfold ret, bind. destruct (k a); reflexivity. Qed.

Lemma bind_Exit {A B} (t : list event) (n : Z) (k : A -> M B) :
  bind (t, Exit n) k = (t, Exit n).
Proof. reflexivity. Qed.

Lemma bind_Raise {A B} (t : list event) (e : exception) (k : A -> M B) :
  bind (t, Raise e) k = (t, Raise e).
Proof. reflexivity. Qed.

(** The effects of the first part of a sequence are the first effects of
    the sequence. *)
Lemma bind_trace {A B} (m : M A) (k : A -> M B) :
  exists t, fst (bind m k) = fst m ++ t.
Proof.
  destruct m as [t [a | n | e]].
  - rewrite bind_Ret. now exists (fst (k a)).
  - exists []. simpl. now rewrite app_nil_r.
  - exists []. simpl. now rewrite app_nil_r.
Qed.

(** A sequence returns only if its first part does. *)
Lemma bind_returns {A B} (m : M A) (k : A -> M B) (t : list event) (b : B) :
  bind m k = (t, Ret b) ->
  exists t1 a t2, m = (t1, Ret a) /\ k a = (t2, Ret b) /\ t = t1 ++ t2.
Proof.
  destruct m as [t1 [a | n | e]]; simpl; try discriminate.
  destruct (k a) as [t2 r] eqn:K. intros H. inversion H; subst.
  now exists t1, a, t2.
Qed.

Lemma when_true (m : M unit) : when true m = m.
Proof. reflexivity. Qed.

Lemma eqb_neq_false (a b : string) : a <> b -> String.eqb a b = false.
Proof. apply String.eqb_neq. Qed.

(** ** The prerequisite checks *)

Lemma virtualenv_check_importable (w : world) :
  virtualenv_importable w = true -> virtualenv_check w = ([], Ret tt).
Proof.
  intros H. unfold virtualenv_check, import_virtualenv. now rewrite H.
Qed.

Lemma virtualenv_check_missing (w : world) :
  virtualenv_importable w = false ->
  virtualenv_check w =
    ([printed msg_virtualenv; Call (pip3_install_virtualenv w)],
     collaborator w (pip3_install_virtualenv w)).
Proof.
  intros H. unfold virtualenv_check, import_virtualenv. rewrite H.
  unfold try_except, raise, print, emit, invoke. simpl exception_eqb. cbv iota.
  rewrite bind_Ret. reflexivity.
Qed.

Lemma installation_checks_not_travis (w : world) :
  getuser w <> "travis" ->
  installation_checks w =
    (precondition_logs w ++ fst (virtualenv_check w),
     snd (virtualenv_check w)).
Proof.
  intros Hu. unfold installation_checks, precondition_logs.
  rewrite (eqb_neq_false _ _ Hu). simpl negb. rewrite when_true.
  fold (virtualenv_check w).
  destruct (negb (getuser w =? "root")%string),
           (prefix "/home" (getcwd w)); unfold when, shared_log, emit, ret;
    rewrite !bind_Ret; simpl; reflexivity.
Qed.

Lemma installation_checks_events (w : world) (e : event) :
  In e (fst (installation_checks w)) ->
  (exists m, e = Log m) \/ e = printed msg_virtualenv
  \/ e = Call (pip3_install_virtualenv w).
Proof.
  destruct (String.eqb_spec (getuser w) "travis") as [Ht | Ht].
  - unfold installation_checks. rewrite Ht. simpl. tauto.
  - rewrite (installation_checks_not_travis w Ht). simpl fst.
    rewrite in_app_iff. intros [H | H].
    + left. unfold precondition_logs in H. rewrite in_app_iff in H.
      destruct (negb _), (prefix _ _); simpl in H;
        intuition (subst; eauto).
    + destruct (virtualenv_importable w) eqn:V.
      * rewrite (virtualenv_check_importable _ V) in H. destruct H.
      * rewrite (virtualenv_check_missing _ V) in H. simpl in H.
        intuition (subst; eauto).
Qed.

Lemma checks_skipped_for_travis (w : world) :
  getuser w = "travis" -> installation_checks w = ([], Ret tt).
Proof.
  intros H. unfold installation_checks. rewrite H. reflexivity.
Qed.

(** C10: when the invoking user is [travis], [installation_checks] does
    nothing at all: no log message, no output, no call, whatever the
    working directory is and whether virtualenv is importable or not; it
    returns at once. *)
Theorem installation_checks_travis (w : world) :
  getuser w = "travis" ->
  installation_checks w = ([], Ret tt)
  /\ forall (cwd : string) (venv : bool),
       installation_checks
         {| sys_argv := sys_argv w; getuser := getuser w; getcwd := cwd;
            passwd := passwd w; expanduser := expanduser w;
            virtualenv_importable := venv; ROOT_DIR := ROOT_DIR w;
            collaborator := collaborator w;
            argparse_other := argparse_other w |} = ([], Ret tt).
Proof.
  intros H. split.
  - now apply checks_skipped_for_travis.
  - intros cwd venv. now apply checks_skipped_for_travis.
Qed.

Lemma installation_checks_travis_witness :
  installation_checks (travis_world ["install"; "all"]) = ([], Ret tt).
Proof.
  apply (installation_checks_travis (travis_world ["install"; "all"])).
  reflexivity.
Defined.

(** ** The environment resolution *)

(** [get_pattoo_home] has no effect and always returns. *)
Lemma get_pattoo_home_returns (w : world) :
  get_pattoo_home w = ret (resolved_home w).
Proof.
  unfold get_pattoo_home, resolved_home, getpwnam.
  destruct (find _ (passwd w)) as [e | ]; reflexivity.
Qed.

Lemma getpwnam_absent (db : list passwd_entry) (name : string) :
  (forall e, In e db -> pw_name e <> name) ->
  find (fun e => String.eqb (pw_name e) name) db = None.
Proof.
  intros H. destruct (find _ db) as [e | ] eqn:F; [ | reflexivity ].
  apply find_some in F. destruct F as [Hin Heq].
  apply String.eqb_eq in Heq. now destruct (H e Hin).
Qed.

Lemma getpwnam_found (db : list passwd_entry) (name : string)
  (e : passwd_entry) :
  getpwnam db name = ret e ->
  find (fun e => String.eqb (pw_name e) name) db = Some e.
Proof.
  unfold getpwnam. destruct (find _ db); unfold ret, raise; congruence.
Qed.

(** C4: for every state of the user database, [get_pattoo_home] returns
    ['/home/pattoo'], without raising, when there is no record of the user
    [pattoo]; it returns ['/home/pattoo'] when the record exists and its
    home directory is ['/nonexistent']; otherwise it returns the home
    directory of the record.  In every case it returns and has no effect. *)
Theorem get_pattoo_home_spec (w : world) :
  ((forall e, In e (passwd w) -> pw_name e <> "pattoo") ->
   get_pattoo_home w = ([], Ret "/home/pattoo"))
  /\ (forall e, getpwnam (passwd w) "pattoo" = ret e ->
                pw_dir e = "/nonexistent" ->
                get_pattoo_home w = ([], Ret "/home/pattoo"))
  /\ (forall e, getpwnam (passwd w) "pattoo" = ret e ->
                pw_dir e <> "/nonexistent" ->
                get_pattoo_home w = ([], Ret (pw_dir e)))
  /\ (exists home, get_pattoo_home w = ([], Ret home)).
Proof.
  rewrite get_pattoo_home_returns. unfold resolved_home, ret.
  repeat split.
  - intros H. now rewrite (getpwnam_absent _ _ H).
  - intros e He Hd. rewrite (getpwnam_found _ _ _ He), Hd. reflexivity.
  - intros e He Hd. rewrite (getpwnam_found _ _ _ He).
    now rewrite (eqb_neq_false _ _ Hd).
  - eauto.
Qed.

Lemma get_pattoo_home_spec_witness :
  get_pattoo_home (root_world []) = ([], Ret "/home/pattoo")
  /\ get_pattoo_home (alice_world true []) = ([], Ret "/home/pattoo")
  /\ get_pattoo_home (failing_pip_world []) = ([], Ret "/opt/pattoo").
Proof.
  split; [ | split ].
  - apply (proj1 (get_pattoo_home_spec (root_world []))).
    simpl. intros e [H | []]. subst e. discriminate.
  - apply (proj1 (proj2 (get_pattoo_home_spec (alice_world true [])))
             {| pw_name := "pattoo"; pw_dir := "/nonexistent" |});
      reflexivity.
  - apply (proj1 (proj2 (proj2 (get_pattoo_home_spec (failing_pip_world []))))
             {| pw_name := "pattoo"; pw_dir := "/opt/pattoo" |}).
    + reflexivity.
    + discriminate.
Defined.

(** ** The start of [main] *)

(** With a user other than [travis], [main] goes from the checks to the
    environment setup for the virtual environment in the resolved home. *)
Lemma main_environment_not_travis (w : world) :
  getuser w <> "travis" ->
  main_environment w =
    (installation_checks w ;;
     invoke w (environment_setup (venv_of w)) ;;
     ret {| pattoo_home := resolved_home w;
            venv_dir := venv_of w;
            installation_dir :=
              (path_join (venv_of w) "bin/python3" ++ " " ++ ROOT_DIR w)%string
         |}).
Proof.
  intros Hu. unfold main_environment. rewrite (eqb_neq_false _ _ Hu).
  simpl negb. cbv iota. rewrite get_pattoo_home_returns.
  destruct (installation_checks w) as [t [[] | n | e]];
    [ | reflexivity | reflexivity ].
  rewrite !bind_Ret, ret_bind. reflexivity.
Qed.

Lemma main_environment_travis (w : world) :
  getuser w = "travis" ->
  main_environment w =
    ([], Ret {| pattoo_home := path_join (expanduser w) "pattoo";
                venv_dir := default_path w;
                installation_dir := ROOT_DIR w |}).
Proof.
  intros Hu. unfold main_environment.
  rewrite (checks_skipped_for_travis w Hu), Hu. reflexivity.
Qed.

Lemma calls_app (t1 t2 : list event) : calls (t1 ++ t2) = calls t1 ++ calls t2.
Proof. unfold calls. now rewrite flat_map_app. Qed.

Lemma installer_calls_app (t1 t2 : list event) :
  installer_calls (t1 ++ t2) = installer_calls t1 ++ installer_calls t2.
Proof. unfold installer_calls. now rewrite calls_app, filter_app. Qed.

Lemma In_calls (t : list event) (c : call) : In c (calls t) <-> In (Call c) t.
Proof.
  unfold calls. rewrite in_flat_map. split.
  - intros [e [He Hc]]. destruct e; simpl in Hc; try tauto.
    destruct Hc as [-> | []]. exact He.
  - intros H. exists (Call c). simpl. auto.
Qed.

Lemma filter_calls_none (f : call -> bool) (t : list event) :
  (forall c, In (Call c) t -> f c = false) ->
  filter f (calls t) = [].
Proof.
  intros H.
  assert (Hall : forall c, In c (calls t) -> f c = false).
  { intros c Hin. now apply H, In_calls. }
  clear H. induction (calls t) as [ | c l IH]; [ reflexivity | ].
  simpl. rewrite (Hall c (or_introl eq_refl)).
  apply IH. intros c' Hin. apply Hall. now right.
Qed.

Lemma no_installer_calls (t : list event) :
  (forall c, In (Call c) t -> is_installer c = false) ->
  installer_calls t = [].
Proof. apply filter_calls_none. Qed.

Lemma calls_map_Call (l : list call) : calls (map Call l) = l.
Proof. induction l as [ | c l IH]; simpl; congruence. Qed.

(** What the first part of [main] can do: log, announce and run the
    installation of virtualenv, and set up the virtual environment. *)
Lemma main_environment_events (w : world) (e : event) :
  In e (fst (main_environment w)) ->
  (exists m, e = Log m) \/ e = printed msg_virtualenv
  \/ e = Call (pip3_install_virtualenv w)
  \/ e = Call (environment_setup (venv_of w)).
Proof.
  destruct (String.eqb_spec (getuser w) "travis") as [Ht | Ht].
  - rewrite (main_environment_travis w Ht). intros [].
  - rewrite (main_environment_not_travis w Ht).
    pose proof (installation_checks_events w e) as Hc.
    destruct (installation_checks w) as [t [[] | n | x]];
      [ | intros H; specialize (Hc H); tauto
        | intros H; specialize (Hc H); tauto ].
    rewrite bind_Ret. simpl fst in *. rewrite in_app_iff.
    intros [H | H]; [ specialize (Hc H); tauto | ].
    unfold invoke in H.
    destruct (collaborator w (environment_setup (venv_of w)));
      simpl in H; intuition auto.
Qed.

Lemma main_environment_no_installer (w : world) :
  installer_calls (fst (main_environment w)) = [].
Proof.
  apply no_installer_calls. intros c Hin.
  apply main_environment_events in Hin.
  destruct Hin as [[m H] | [H | [H | H]]]; inversion H; reflexivity.
Qed.

Lemma main_environment_no_done (w : world) :
  ~ In done (fst (main_environment w)).
Proof.
  intros Hin. apply main_environment_events in Hin.
  destruct Hin as [[m H] | [H | [H | H]]]; discriminate H.
Qed.

(** If the first part of [main] returns, every call it made returned. *)
Lemma main_environment_calls_returned (w : world) (pre : list event)
  (d : directories) (c : call) :
  main_environment w = (pre, Ret d) ->
  In (Call c) pre -> collaborator w c = Ret tt.
Proof.
  destruct (String.eqb_spec (getuser w) "travis") as [Ht | Ht].
  - rewrite (main_environment_travis w Ht). intros H. inversion H. intros [].
  - rewrite (main_environment_not_travis w Ht).
    rewrite (installation_checks_not_travis w Ht).
    intros H. apply bind_returns in H.
    destruct H as [t1 [[] [t2 [H1 [H2 ->]]]]].
    apply bind_returns in H2. destruct H2 as [t3 [[] [t4 [H3 [H4 ->]]]]].
    unfold ret in H4. assert (Ht4 : t4 = []) by congruence. subst t4.
    unfold invoke in H3. inversion H3 as [[Ht3 Hr3]]. subst t3.
    inversion H1 as [[Ht1 Hr1]].
    rewrite !in_app_iff. intros [[Hin | Hin] | [Hin | Hin]].
    + unfold precondition_logs in Hin. rewrite in_app_iff in Hin.
      destruct (negb _), (prefix _ _); simpl in Hin;
        intuition discriminate.
    + destruct (virtualenv_importable w) eqn:V.
      * rewrite (virtualenv_check_importable _ V) in Hin. destruct Hin.
      * rewrite (virtualenv_check_missing _ V) in Hin, Hr1. simpl in Hin, Hr1.
        destruct Hin as [Hin | [Hin | []]]; [ discriminate Hin | ].
        inversion Hin; subst c. congruence.
    + simpl in Hin. destruct Hin as [Hin | []]. inversion Hin; subst c.
      congruence.
    + destruct Hin.
Qed.

(** C9, as amended: [installation_checks] does not halt and does not raise
    on a wrong user or a wrong working directory.  For every invoking user
    other than root and travis and every working directory under [/home] it
    logs the two messages and goes on to the virtualenv check: when
    virtualenv is importable nothing else happens and it returns normally;
    when it is not, the script also announces the installation on standard
    output and runs [pip3 install virtualenv], and returns if that call
    does.  Once it has returned, [main] continues with the environment
    setup. *)
Theorem installation_checks_log_and_continue (w : world) :
  getuser w <> "travis" ->
  getuser w <> "root" ->
  prefix "/home" (getcwd w) = true ->
  (virtualenv_importable w = true ->
   installation_checks w =
     ([Log msg_not_root; Log msg_home_directory], Ret tt))
  /\ (virtualenv_importable w = false ->
      installation_checks w =
        ([Log msg_not_root; Log msg_home_directory;
          printed msg_virtualenv; Call (pip3_install_virtualenv w)],
         collaborator w (pip3_install_virtualenv w)))
  /\ (snd (installation_checks w) = Ret tt ->
      exists t r,
        main w = (fst (installation_checks w)
                  ++ Call (environment_setup (venv_of w)) :: t, r)).
Proof.
  intros Ht Hr Hd.
  assert (Hlogs : precondition_logs w = [Log msg_not_root; Log msg_home_directory]).
  { unfold precondition_logs. now rewrite (eqb_neq_false _ _ Hr), Hd. }
  repeat split.
  - intros V. rewrite (installation_checks_not_travis w Ht), Hlogs.
    now rewrite (virtualenv_check_importable w V).
  - intros V. rewrite (installation_checks_not_travis w Ht), Hlogs.
    now rewrite (virtualenv_check_missing w V).
  - intros Hret. unfold main.
    rewrite (main_environment_not_travis w Ht).
    destruct (installation_checks w) as [t0 r0]. simpl in Hret. subst r0.
    rewrite bind_Ret. unfold invoke.
    destruct (collaborator w (environment_setup (venv_of w))) as [[] | n | e].
    + rewrite bind_Ret. simpl fst. simpl snd.
      rewrite bind_Ret. eexists _, _.
      rewrite <- !app_assoc. simpl. reflexivity.
    + exists [], (Exit n). reflexivity.
    + exists [], (Raise e). reflexivity.
Qed.

Lemma installation_checks_log_and_continue_witness :
  installation_checks (alice_world true ["install"; "all"]) =
    ([Log msg_not_root; Log msg_home_directory], Ret tt).
Proof.
  apply (installation_checks_log_and_continue
           (alice_world true ["install"; "all"])).
  - discriminate.
  - discriminate.
  - reflexivity.
  - reflexivity.
Defined.

(** C9, as stated, fails where virtualenv is not importable: for a user that
    is neither root nor travis, in a working directory under [/home], the
    checks do more than emit log messages. *)
Lemma installation_checks_installs_virtualenv :
  getuser (alice_world false ["install"; "all"]) <> "root"
  /\ getuser (alice_world false ["install"; "all"]) <> "travis"
  /\ prefix "/home" (getcwd (alice_world false ["install"; "all"])) = true
  /\ installation_checks (alice_world false ["install"; "all"]) =
       ([Log msg_not_root; Log msg_home_directory;
         printed "virtualenv is not installed. Installing virtualenv";
         Call (shared_run_script
                 "pip3 install virtualenv -t /home/alice/.local/lib/python3.6/site-packages")],
        Ret tt)
  /\ forallb is_log
       (fst (installation_checks (alice_world false ["install"; "all"])))
     = false.
Proof.
  repeat split; try discriminate; reflexivity.
Qed.

(** ** The command line *)

(** A string that does not begin with [-] is no help flag. *)
Lemma plain_not_help (s : string) :
  prefix "-" s = false -> is_help_flag s = false.
Proof.
  intros H. unfold is_help_flag.
  destruct (String.eqb_spec s "-h") as [-> | _]; [ discriminate H | ].
  destruct (String.eqb_spec s "--help") as [-> | _]; [ discriminate H | ].
  reflexivity.
Qed.

Lemma plain_modelled (s : string) :
  prefix "-" s = false -> modelled_argument s = true.
Proof. intros H. unfold modelled_argument. now rewrite H. Qed.

Lemma choice_install_none (q : string) :
  ~ In q ["all"; "pip"; "configuration"; "systemd"] ->
  choice q (subparsers p_install) = None.
Proof.
  intros H. simpl in H. unfold subparsers, choice.
  destruct (String.eqb_spec "all" q); [ intuition | ].
  destruct (String.eqb_spec "configuration" q); [ intuition | ].
  destruct (String.eqb_spec "pip" q); [ intuition | ].
  destruct (String.eqb_spec "systemd" q); [ intuition | ].
  reflexivity.
Qed.

(** argparse on [install <q>] for a plain word [q] that is none of the four
    qualifiers: an invalid choice, found by the [install] parser. *)
Lemma parse_args_unknown_qualifier (w : world) (q : string) :
  ~ In q ["all"; "pip"; "configuration"; "systemd"] ->
  prefix "-" q = false ->
  parse_args w ["install"; q] =
    ArgumentError p_install (invalid_choice "qualifier" q).
Proof.
  intros Hq Hp. unfold parse_args.
  assert (Hf : forallb modelled_argument ["install"; q] = true).
  { simpl forallb. rewrite (plain_modelled q Hp). reflexivity. }
  rewrite Hf. clear Hf.
  change (parse_main ["install"; q] [])
    with (match parse_install [q] [] with
          | Known ns sub_extras =>
              Known {| action := Some "install"; qualifier := qualifier ns;
                       verbose := verbose ns |} ([] ++ sub_extras)
          | other => other
          end).
  unfold parse_install. rewrite (plain_not_help q Hp), Hp.
  rewrite (choice_install_none q Hq). reflexivity.
Qed.

(** Whatever [Parser.args] writes is an error banner or a help text. *)
Lemma Parser_args_events (w : world) (e : event) :
  In e (fst (Parser_args w)) ->
  exists f t, e = Output f t /\ forall s, t <> Lit s.
Proof.
  unfold Parser_args, _Parser_parse_args.
  destruct (Nat.eqb _ 1).
  - simpl. intros [<- | []]. eexists _, _. split; [ reflexivity | ].
    discriminate.
  - destruct (parse_args w (tl (sys_argv w))); simpl.
    + intros [].
    + intros [<- | []]. eexists _, _. split; [ reflexivity | discriminate ].
    + intros [<- | [<- | []]]; eexists _, _;
        (split; [ reflexivity | discriminate ]).
Qed.

(** [Parser.args] never raises; when it returns it has written nothing and
    hands back the top-level parser. *)
Lemma Parser_args_returned (w : world) (t : list event) (ns : Namespace)
  (p : parser_id) :
  Parser_args w = (t, Ret (ns, p)) -> t = [] /\ p = p_main.
Proof.
  unfold Parser_args, _Parser_parse_args.
  destruct (Nat.eqb _ 1); [ discriminate | ].
  destruct (parse_args w (tl (sys_argv w))); simpl; try discriminate.
  intros H. inversion H. auto.
Qed.

Lemma Parser_args_result (w : world) :
  (exists ns, Parser_args w = ([], Ret (ns, p_main)))
  \/ (exists n, snd (Parser_args w) = Exit n).
Proof.
  unfold Parser_args, _Parser_parse_args.
  destruct (Nat.eqb _ 1); [ right; now exists 1%Z | ].
  destruct (parse_args w (tl (sys_argv w))); simpl.
  - left. now exists ns.
  - right. now exists 0%Z.
  - right. now exists 2%Z.
Qed.

(** ** The orchestrator *)

Lemma main_after_environment (w : world) (pre : list event)
  (d : directories) :
  main_environment w = (pre, Ret d) ->
  main w = (pre ++ fst (main_cli w d), snd (main_cli w d)).
Proof. intros H. unfold main. rewrite H. apply bind_Ret. Qed.

(** When the command line ends the run, so does [main_cli]. *)
Lemma main_cli_exit (w : world) (d : directories) (n : Z) :
  snd (Parser_args w) = Exit n ->
  main_cli w d = (fst (Parser_args w), Exit n).
Proof.
  unfold main_cli. destruct (Parser_args w) as [t r]. simpl.
  intros ->. reflexivity.
Qed.

Lemma main_cli_other_action (w : world) (d : directories) (ns : Namespace) :
  Parser_args w = ([], Ret (ns, p_main)) ->
  is_str (action ns) "install" = false ->
  main_cli w d = ([], Ret tt).
Proof.
  intros HP Ha. unfold main_cli. rewrite HP, bind_Ret. simpl.
  now rewrite Ha.
Qed.

Lemma main_cli_no_qualifier (w : world) (d : directories) (ns : Namespace) :
  Parser_args w = ([], Ret (ns, p_main)) ->
  is_str (action ns) "install" = true ->
  valid_qualifier (qualifier ns) = false ->
  main_cli w d = ([Output stderr (HelpText p_main)], Exit 1).
Proof.
  intros HP Ha Hq. unfold main_cli. rewrite HP, bind_Ret. simpl fst.
  simpl snd. cbv beta iota. rewrite Ha.
  unfold valid_qualifier in Hq. rewrite !orb_false_iff in Hq.
  destruct Hq as [[[-> ->] ->] ->]. reflexivity.
Qed.

Lemma run_steps_prefix (w : world) (cs : list call) :
  exists k, fst (run_steps w cs) = firstn k cs /\ (cs <> [] -> 1 <= k).
Proof.
  induction cs as [ | c rest [k [IH _]]].
  - exists 0. split; [ reflexivity | congruence ].
  - simpl. destruct (collaborator w c).
    + exists (S k). destruct (run_steps w rest). simpl in *.
      split; [ now rewrite IH | lia ].
    + exists 1. split; [ now destruct rest | lia ].
    + exists 1. split; [ now destruct rest | lia ].
Qed.

Lemma run_steps_returned (w : world) (cs : list call) (u : unit) :
  snd (run_steps w cs) = Ret u ->
  fst (run_steps w cs) = cs /\ forall c, In c cs -> collaborator w c = Ret tt.
Proof.
  induction cs as [ | c rest IH]; simpl.
  - intros _. split; [ reflexivity | intros c [] ].
  - destruct (collaborator w c) as [[] | n | e] eqn:E; try discriminate.
    destruct (run_steps w rest) as [l r]. simpl in *. intros H.
    destruct (IH H) as [-> Hall]. split; [ reflexivity | ].
    intros c' [<- | Hin]; auto.
Qed.

Lemma run_steps_all_return (w : world) (cs : list call) :
  (forall c, In c cs -> collaborator w c = Ret tt) ->
  run_steps w cs = (cs, Ret tt).
Proof.
  induction cs as [ | c rest IH]; intros H; [ reflexivity | ].
  simpl. rewrite (H c (or_introl eq_refl)).
  rewrite IH; [ reflexivity | ]. intros c' Hin. apply H. now right.
Qed.

(** The code of lines 314-347 carries out the table: for a valid
    qualifier it announces the steps, runs them in order as far as they
    return, and prints the completion message if all of them did. *)
Lemma main_cli_valid (w : world) (d : directories) (ns : Namespace)
  (q : string) :
  Parser_args w = ([], Ret (ns, p_main)) ->
  action ns = Some "install" ->
  qualifier ns = Some q ->
  In q ["all"; "configuration"; "pip"; "systemd"] ->
  main_cli w d =
    (printed (announcement q)
       :: map Call (fst (run_steps w (spec_steps w d (verbose ns) q)))
       ++ match snd (run_steps w (spec_steps w d (verbose ns) q)) with
          | Ret _ => [done]
          | _ => []
          end,
     snd (run_steps w (spec_steps w d (verbose ns) q))).
Proof.
  intros HP Ha Hq Hin. unfold main_cli. rewrite HP, bind_Ret. simpl fst.
  simpl snd. cbv beta iota. rewrite Ha, Hq.
  simpl in Hin. destruct Hin as [<- | [<- | [<- | [<- | []]]]];
    unfold spec_steps, announcement, run_steps, invoke; simpl is_str;
    simpl String.eqb; cbv beta iota zeta.
  - destruct (collaborator w (configure_install _ _)) as [[] | n | e];
      [ | reflexivity | reflexivity ].
    destruct (collaborator w (packages_install _ _ _)) as [[] | n | e];
      [ | reflexivity | reflexivity ].
    destruct (collaborator w (systemd_install _ _ _)) as [[] | n | e];
      reflexivity.
  - destruct (collaborator w (configure_install _ _)) as [[] | n | e];
      reflexivity.
  - destruct (collaborator w (packages_install _ _ _)) as [[] | n | e];
      reflexivity.
  - destruct (collaborator w (systemd_install _ _ _)) as [[] | n | e];
      reflexivity.
Qed.

Lemma main_valid (w : world) (pre : list event) (d : directories)
  (ns : Namespace) (q : string) :
  main_environment w = (pre, Ret d) ->
  Parser_args w = ([], Ret (ns, p_main)) ->
  action ns = Some "install" ->
  qualifier ns = Some q ->
  In q ["all"; "configuration"; "pip"; "systemd"] ->
  main w =
    (pre ++ printed (announcement q)
       :: map Call (fst (run_steps w (spec_steps w d (verbose ns) q)))
       ++ match snd (run_steps w (spec_steps w d (verbose ns) q)) with
          | Ret _ => [done]
          | _ => []
          end,
     snd (run_steps w (spec_steps w d (verbose ns) q))).
Proof.
  intros Henv HP Ha Hq Hin.
  rewrite (main_after_environment w pre d Henv).
  now rewrite (main_cli_valid w d ns q HP Ha Hq Hin).
Qed.

(** The calls of a run of the steps are the calls made, whether or not the
    completion message follows. *)
Lemma calls_of_steps (a : string) (l : list call) (r : result unit) :
  calls (printed a :: map Call l
         ++ match r with Ret _ => [done] | _ => [] end) = l.
Proof.
  change (printed a :: map Call l ++ match r with Ret _ => [done] | _ => [] end)
    with ([printed a] ++ map Call l
          ++ match r with Ret _ => [done] | _ => [] end).
  rewrite !calls_app, calls_map_Call.
  destruct r; simpl; now rewrite app_nil_r.
Qed.

(** C1: in every run parsed as [install all], the orchestrator invokes
    [configure.install], then [packages.install], then [systemd.install],
    in that order and with no other call between them.  Nothing before the
    command line is parsed calls an installation step; the calls made
    after it are always an initial part of the three, in order; all three
    are made as soon as the first two return; and when all return the run
    is exactly: the announcement, the three calls, the completion
    message. *)
Theorem install_all_order (w : world) (pre : list event) (d : directories)
  (ns : Namespace) :
  main_environment w = (pre, Ret d) ->
  Parser_args w = ([], Ret (ns, p_main)) ->
  action ns = Some "install" ->
  qualifier ns = Some "all" ->
  let write_configuration := configure_install daemon_list (pattoo_home d) in
  let install_packages :=
    packages_install (ROOT_DIR w) (venv_dir d) (verbose ns) in
  let install_units :=
    systemd_install daemon_list (template_dir w) (installation_dir d) in
  installer_calls pre = []
  /\ (exists k, 1 <= k /\
        calls (fst (main w)) =
          calls pre
          ++ firstn k [write_configuration; install_packages; install_units])
  /\ (collaborator w write_configuration = Ret tt ->
      collaborator w install_packages = Ret tt ->
      calls (fst (main w)) =
        calls pre ++ [write_configuration; install_packages; install_units])
  /\ (collaborator w write_configuration = Ret tt ->
      collaborator w install_packages = Ret tt ->
      collaborator w install_units = Ret tt ->
      main w =
        (pre ++ [printed "Installing everything";
                 Call write_configuration;
                 Call install_packages;
                 Call install_units;
                 done],
         Ret tt)).
Proof.
  intros Henv HP Ha Hq cfg pkg units.
  assert (Hsteps : spec_steps w d (verbose ns) "all" = [cfg; pkg; units])
    by reflexivity.
  assert (Hall : In "all" ["all"; "configuration"; "pip"; "systemd"])
    by (simpl; auto).
  pose proof (main_valid w pre d ns "all" Henv HP Ha Hq Hall) as Hmain.
  rewrite Hsteps in Hmain.
  assert (Hcalls : calls (fst (main w))
                   = calls pre ++ fst (run_steps w [cfg; pkg; units])).
  { rewrite Hmain. simpl fst. now rewrite calls_app, calls_of_steps. }
  split; [ | split; [ | split ] ].
  - pose proof (main_environment_no_installer w) as H.
    now rewrite Henv in H.
  - destruct (run_steps_prefix w [cfg; pkg; units]) as [k [Hk Hpos]].
    exists k. split; [ apply Hpos; discriminate | ].
    now rewrite Hcalls, Hk.
  - intros H1 H2. rewrite Hcalls. f_equal. simpl. rewrite H1, H2.
    now destruct (collaborator w units).
  - intros H1 H2 H3. rewrite Hmain.
    rewrite run_steps_all_return; [ reflexivity | ].
    simpl. intros c [<- | [<- | [<- | []]]]; assumption.
Qed.

Lemma install_all_order_witness :
  main (root_world ["install"; "all"; "--verbose"]) =
    ([Call (environment_setup "/home/pattoo/pattoo-venv");
      printed "Installing everything";
      Call (configure_install daemon_list "/home/pattoo");
      Call (packages_install "/opt/pattoo-agent-linux"
                             "/home/pattoo/pattoo-venv" true);
      Call (systemd_install daemon_list
              "/opt/pattoo-agent-linux/setup/systemd/system"
              "/home/pattoo/pattoo-venv/bin/python3 /opt/pattoo-agent-linux");
      done],
     Ret tt).
Proof.
  apply (install_all_order
           (root_world ["install"; "all"; "--verbose"])
           [Call (environment_setup "/home/pattoo/pattoo-venv")]
           {| pattoo_home := "/home/pattoo";
              venv_dir := "/home/pattoo/pattoo-venv";
              installation_dir :=
                "/home/pattoo/pattoo-venv/bin/python3 /opt/pattoo-agent-linux"
           |}
           {| action := Some "install"; qualifier := Some "all";
              verbose := true |});
    reflexivity.
Defined.

Lemma installation_checks_returns (w : world) :
  (forall c, In (Call c) (fst (installation_checks w)) ->
             collaborator w c = Ret tt) ->
  snd (installation_checks w) = Ret tt.
Proof.
  destruct (String.eqb_spec (getuser w) "travis") as [Ht | Ht].
  - now rewrite (checks_skipped_for_travis w Ht).
  - rewrite (installation_checks_not_travis w Ht). simpl fst. simpl snd.
    destruct (virtualenv_importable w) eqn:V.
    + now rewrite (virtualenv_check_importable w V).
    + rewrite (virtualenv_check_missing w V). simpl fst. simpl snd.
      intros H. apply H. rewrite in_app_iff. right. simpl. auto.
Qed.

Lemma main_environment_returns (w : world) :
  (forall c, In (Call c) (fst (main_environment w)) ->
             collaborator w c = Ret tt) ->
  exists d, snd (main_environment w) = Ret d.
Proof.
  destruct (String.eqb_spec (getuser w) "travis") as [Ht | Ht].
  - rewrite (main_environment_travis w Ht). intros _. eexists. reflexivity.
  - rewrite (main_environment_not_travis w Ht).
    pose proof (installation_checks_returns w) as Hc.
    destruct (installation_checks w) as [t0 r0]. simpl fst in Hc.
    simpl snd in Hc. intros H.
    assert (Hr0 : r0 = Ret tt).
    { apply Hc. intros c Hin. apply H.
      destruct (bind_trace (t0, r0)
                  (fun _ => invoke w (environment_setup (venv_of w)) ;;
                            ret {| pattoo_home := resolved_home w;
                                   venv_dir := venv_of w;
                                   installation_dir :=
                                     (path_join (venv_of w) "bin/python3"
                                      ++ " " ++ ROOT_DIR w)%string |}))
        as [t Ht0].
      rewrite Ht0. apply in_app_iff. now left. }
    subst r0. rewrite bind_Ret in H |- *. unfold invoke in H |- *.
    assert (He : collaborator w (environment_setup (venv_of w)) = Ret tt).
    { apply H. simpl fst. apply in_app_iff. right.
      destruct (collaborator w (environment_setup (venv_of w)));
        simpl; auto. }
    rewrite He. eexists. reflexivity.
Qed.

(** C5, as amended: invoked with no arguments (an argument vector of
    length one), [Parser.args] prints the usage to standard error and exits
    with status 1, and no installation step is invoked in such a run.  The
    checks and the environment setup come before the command line: when
    every call they make returns, the run is their effects followed by the
    usage on standard error, and the process ends with status exactly
    1. *)
Theorem no_arguments_usage (w : world) :
  List.length (sys_argv w) = 1 ->
  Parser_args w = ([Output stderr (HelpText p_main)], Exit 1)
  /\ installer_calls (fst (main w)) = []
  /\ ((forall c, In (Call c) (fst (main w)) -> collaborator w c = Ret tt) ->
      main w = (fst (main_environment w)
                ++ [Output stderr (HelpText p_main)], Exit 1)
      /\ exit_status (snd (main w)) = 1%Z).
Proof.
  intros Hlen.
  assert (HP : Parser_args w = ([Output stderr (HelpText p_main)], Exit 1)).
  { unfold Parser_args. rewrite Hlen. reflexivity. }
  assert (Hcli : forall d,
             main_cli w d = ([Output stderr (HelpText p_main)], Exit 1)).
  { intros d. rewrite (main_cli_exit w d 1); now rewrite HP. }
  split; [ exact HP | split ].
  - pose proof (main_environment_no_installer w) as Hpre.
    destruct (main_environment w) as [pre [d | n | e]] eqn:Henv.
    + rewrite (main_after_environment w pre d Henv), Hcli. simpl fst in *.
      now rewrite installer_calls_app, Hpre.
    + unfold main. now rewrite Henv.
    + unfold main. now rewrite Henv.
  - intros Hall.
    destruct (main_environment_returns w) as [d Hd].
    { intros c Hin. apply Hall. unfold main.
      destruct (bind_trace (main_environment w) (fun d => main_cli w d))
        as [t Ht].
      rewrite Ht. apply in_app_iff. now left. }
    destruct (main_environment w) as [pre r] eqn:Henv. simpl in Hd.
    subst r. rewrite (main_after_environment w pre d Henv), Hcli.
    now split.
Qed.

Lemma no_arguments_usage_witness :
  main (alice_world false []) =
    ([Log msg_not_root; Log msg_home_directory;
      printed msg_virtualenv;
      Call (pip3_install_virtualenv (alice_world false []));
      Call (environment_setup "/home/pattoo/pattoo-venv");
      Output stderr (HelpText p_main)],
     Exit 1).
Proof.
  apply (proj2 (proj2 (no_arguments_usage (alice_world false []) eq_refl))).
  intros c _. reflexivity.
Defined.

(** C5, as stated, fails where the environment setup does not return: the
    setup is called before the command line is read (lines 297-300), so a
    run without arguments on a host where it ends the process with status
    2 prints no usage and does not exit with status 1. *)
Lemma no_arguments_failing_setup :
  List.length (sys_argv (failing_setup_world [])) = 1
  /\ main (failing_setup_world []) =
       ([Call (environment_setup "/opt/pattoo/pattoo-venv")], Exit 2)
  /\ ~ In (Output stderr (HelpText p_main))
          (fst (main (failing_setup_world [])))
  /\ exit_status (snd (main (failing_setup_world []))) <> 1%Z.
Proof.
  split; [ reflexivity | split; [ reflexivity | split ] ].
  - simpl. intuition discriminate.
  - discriminate.
Qed.

Lemma main_environment_filter (w : world) (f : call -> bool) :
  (forall c, f c = true -> is_installer c = true) ->
  filter f (calls (fst (main_environment w))) = [].
Proof.
  intros Hf. apply filter_calls_none. intros c Hin.
  apply main_environment_events in Hin.
  destruct (f c) eqn:E; [ | reflexivity ].
  apply Hf in E.
  destruct Hin as [[m H] | [H | [H | H]]]; inversion H; subst c;
    discriminate E.
Qed.

(** C6: in every run parsed as [install pip], the package installation is
    called exactly once, and its verbosity argument is the parsed value of
    the flag, unchanged: [True] for [install pip --verbose], [False] when
    the flag is absent. *)
Theorem pip_verbose_propagated (w : world) (pre : list event)
  (d : directories) (ns : Namespace) :
  main_environment w = (pre, Ret d) ->
  Parser_args w = ([], Ret (ns, p_main)) ->
  action ns = Some "install" ->
  qualifier ns = Some "pip" ->
  filter is_packages_install (calls (fst (main w))) =
    [packages_install (ROOT_DIR w) (venv_dir d) (verbose ns)]
  /\ calls (fst (main w)) =
       calls pre ++ [packages_install (ROOT_DIR w) (venv_dir d) (verbose ns)]
  /\ (forall prog,
        sys_argv w = [prog; "install"; "pip"; "--verbose"] ->
        verbose ns = true)
  /\ (forall prog,
        sys_argv w = [prog; "install"; "pip"] -> verbose ns = false).
Proof.
  intros Henv HP Ha Hq.
  assert (Hpip : In "pip" ["all"; "configuration"; "pip"; "systemd"])
    by (simpl; auto).
  pose proof (main_valid w pre d ns "pip" Henv HP Ha Hq Hpip) as Hmain.
  assert (Hsteps : spec_steps w d (verbose ns) "pip"
                   = [packages_install (ROOT_DIR w) (venv_dir d) (verbose ns)])
    by reflexivity.
  rewrite Hsteps in Hmain.
  assert (Hrun : fst (run_steps w [packages_install (ROOT_DIR w) (venv_dir d)
                                     (verbose ns)])
                 = [packages_install (ROOT_DIR w) (venv_dir d) (verbose ns)]).
  { simpl. now destruct (collaborator w _). }
  assert (Hcalls : calls (fst (main w)) =
                   calls pre ++ [packages_install (ROOT_DIR w) (venv_dir d)
                                   (verbose ns)]).
  { transitivity
      (calls pre
       ++ fst (run_steps w [packages_install (ROOT_DIR w) (venv_dir d)
                              (verbose ns)])).
    - rewrite Hmain. simpl fst. now rewrite calls_app, calls_of_steps.
    - now rewrite Hrun. }
  split; [ | split; [ exact Hcalls | split ] ].
  - rewrite Hcalls, filter_app.
    pose proof (main_environment_filter w is_packages_install) as Hpre.
    rewrite Henv in Hpre. simpl fst in Hpre. rewrite Hpre; [ reflexivity | ].
    intros c. destruct c; simpl; congruence.
  - intros prog Hargv. unfold Parser_args, _Parser_parse_args in HP.
    rewrite Hargv in HP. simpl in HP. inversion HP. reflexivity.
  - intros prog Hargv. unfold Parser_args, _Parser_parse_args in HP.
    rewrite Hargv in HP. simpl in HP. inversion HP. reflexivity.
Qed.

Lemma pip_verbose_propagated_witness :
  filter is_packages_install
    (calls (fst (main (root_world ["install"; "pip"; "--verbose"])))) =
    [packages_install "/opt/pattoo-agent-linux" "/home/pattoo/pattoo-venv"
                      true].
Proof.
  apply (pip_verbose_propagated
           (root_world ["install"; "pip"; "--verbose"])
           [Call (environment_setup "/home/pattoo/pattoo-venv")]
           {| pattoo_home := "/home/pattoo";
              venv_dir := "/home/pattoo/pattoo-venv";
              installation_dir :=
                "/home/pattoo/pattoo-venv/bin/python3 /opt/pattoo-agent-linux"
           |}
           {| action := Some "install"; qualifier := Some "pip";
              verbose := true |});
    reflexivity.
Defined.

(** C2, as amended: for every plain word (a string that does not begin
    with [-]) that is none of [all], [pip], [configuration], [systemd],
    [install <word>] is rejected by argparse as an invalid choice of the
    [install] parser: [_Parser.error] writes the error to standard error,
    prints the help of that parser and ends the run with the non-zero exit
    status 2, and no installation step is invoked. *)
Theorem unrecognized_qualifier_exit_2 (w : world) (prog q : string) :
  ~ In q ["all"; "pip"; "configuration"; "systemd"] ->
  prefix "-" q = false ->
  sys_argv w = [prog; "install"; q] ->
  (exists f,
     Parser_args w =
       ([Output stderr (ErrorBanner (invalid_choice "qualifier" q));
         Output f (HelpText p_install)],
        Exit 2))
  /\ installer_calls (fst (main w)) = []
  /\ (forall pre d,
        main_environment w = (pre, Ret d) ->
        snd (main w) = Exit 2
        /\ exit_status (snd (main w)) <> 0%Z
        /\ fst (main w) = pre ++ fst (Parser_args w)).
Proof.
  intros Hq Hp Hargv.
  assert (HP : Parser_args w =
               ([Output stderr (ErrorBanner (invalid_choice "qualifier" q));
                 Output stdout (HelpText p_install)], Exit 2)).
  { unfold Parser_args, _Parser_parse_args. rewrite Hargv.
    change (tl [prog; "install"; q]) with ["install"; q].
    rewrite (parse_args_unknown_qualifier w q Hq Hp). reflexivity. }
  assert (Hcli : forall d, main_cli w d = (fst (Parser_args w), Exit 2)).
  { intros d. apply main_cli_exit. now rewrite HP. }
  split; [ now exists stdout | split ].
  - pose proof (main_environment_no_installer w) as Hpre.
    destruct (main_environment w) as [pre [d | n | e]] eqn:Henv.
    + rewrite (main_after_environment w pre d Henv), Hcli, HP.
      simpl fst in *. now rewrite installer_calls_app, Hpre.
    + unfold main. now rewrite Henv.
    + unfold main. now rewrite Henv.
  - intros pre d Henv.
    rewrite (main_after_environment w pre d Henv), Hcli.
    repeat split. discriminate.
Qed.

Lemma unrecognized_qualifier_exit_2_witness :
  snd (main (root_world ["install"; "uninstall"])) = Exit 2.
Proof.
  assert (Hq : ~ In "uninstall" ["all"; "pip"; "configuration"; "systemd"]).
  { simpl. intuition discriminate. }
  apply (proj2 (proj2 (unrecognized_qualifier_exit_2
                         (root_world ["install"; "uninstall"])
                         "setup/linux_agent_installation.py" "uninstall"
                         Hq eq_refl eq_refl))
           [Call (environment_setup "/home/pattoo/pattoo-venv")]
           {| pattoo_home := "/home/pattoo";
              venv_dir := "/home/pattoo/pattoo-venv";
              installation_dir :=
                "/home/pattoo/pattoo-venv/bin/python3 /opt/pattoo-agent-linux"
           |}).
  reflexivity.
Defined.

(** C2, as stated, fails: [install foo] ends with exit status 2, not 1. *)
Lemma qualifier_foo_exits_2 :
  ~ In "foo" ["all"; "pip"; "configuration"; "systemd"]
  /\ sys_argv (root_world ["install"; "foo"]) =
       ["setup/linux_agent_installation.py"; "install"; "foo"]
  /\ main (root_world ["install"; "foo"]) =
       ([Call (environment_setup "/home/pattoo/pattoo-venv");
         Output stderr (ErrorBanner (invalid_choice "qualifier" "foo"));
         Output stdout (HelpText p_install)],
        Exit 2)
  /\ exit_status (snd (main (root_world ["install"; "foo"]))) <> 1%Z.
Proof.
  repeat split; try discriminate.
  simpl. intuition discriminate.
Qed.

(** Status 1 is what [install] without a qualifier gets, with the usage on
    standard error (lines 342-344), and the help flag in the place of the
    qualifier ends the run with status 0. *)
Lemma install_without_qualifier :
  main_cli (travis_world ["install"])
           {| pattoo_home := "/home/travis/pattoo";
              venv_dir := default_path (travis_world ["install"]);
              installation_dir := "/home/travis/build/pattoo-agent-linux" |}
  = ([Output stderr (HelpText p_main)], Exit 1).
Proof. reflexivity. Qed.

Lemma install_help_flag :
  main (travis_world ["install"; "-h"]) =
    ([Output stdout (HelpText p_install)], Exit 0).
Proof. reflexivity. Qed.

(** C8: the code at an unrecognised input.  [_Parser.error] writes the
    error banner to standard error and then calls [print_help()] without a
    file, which argparse sends to standard output: for [remove] in the
    place of the subcommand the help text of the run is on standard output,
    and so it is for every error of every parser. *)
Theorem parser_error_help_on_stdout :
  Parser_args (root_world ["remove"]) =
    ([Output stderr (ErrorBanner (invalid_choice "action" "remove"));
      Output stdout (HelpText p_main)],
     Exit 2)
  /\ forall (p : parser_id) (message : arg_error),
       @_Parser_error Namespace p message =
         ([Output stderr (ErrorBanner message); Output stdout (HelpText p)],
          Exit 2).
Proof. split; reflexivity. Qed.

Lemma resolved_home_absent (w : world) :
  (forall e, In e (passwd w) -> pw_name e <> "pattoo") ->
  resolved_home w = "/home/pattoo".
Proof.
  intros H. unfold resolved_home. now rewrite (getpwnam_absent _ _ H).
Qed.

Lemma installation_checks_no_installer (w : world) (f : call -> bool) :
  (forall c, f c = true -> is_installer c = true) ->
  filter f (calls (fst (installation_checks w))) = [].
Proof.
  intros Hf. apply filter_calls_none. intros c Hin.
  apply installation_checks_events in Hin.
  destruct (f c) eqn:E; [ | reflexivity ].
  apply Hf in E.
  destruct Hin as [[m H] | [H | H]]; inversion H; subst c; discriminate E.
Qed.

(** C3, as amended: with no [pattoo] entry in the user database, the
    arguments [install configuration] and an invoking user other than
    [travis], a run whose checks and collaborators return calls
    [configure.install] exactly once, with the fixed list of the three
    daemons and the home directory ['/home/pattoo'], and then prints
    [Done]. *)
Theorem install_configuration_scenario (w : world) (prog : string)
  (checks : list event) :
  getuser w <> "travis" ->
  (forall e, In e (passwd w) -> pw_name e <> "pattoo") ->
  sys_argv w = [prog; "install"; "configuration"] ->
  installation_checks w = (checks, Ret tt) ->
  collaborator w (environment_setup "/home/pattoo/pattoo-venv") = Ret tt ->
  collaborator w
    (configure_install
       ["pattoo_agent_linux_autonomousd"; "pattoo_agent_linux_spoked";
        "pattoo_agent_linux_hubd"] "/home/pattoo") = Ret tt ->
  main w =
    (checks ++ [Call (environment_setup "/home/pattoo/pattoo-venv");
                printed "Installing configuration";
                Call (configure_install
                        ["pattoo_agent_linux_autonomousd";
                         "pattoo_agent_linux_spoked";
                         "pattoo_agent_linux_hubd"] "/home/pattoo");
                done],
     Ret tt)
  /\ filter is_configure_install (calls (fst (main w))) =
       [configure_install
          ["pattoo_agent_linux_autonomousd"; "pattoo_agent_linux_spoked";
           "pattoo_agent_linux_hubd"] "/home/pattoo"].
Proof.
  intros Hu Hdb Hargv Hchecks Henvok Hcfgok.
  pose proof (resolved_home_absent w Hdb) as Hhome.
  assert (Hvenv : venv_of w = "/home/pattoo/pattoo-venv").
  { unfold venv_of. now rewrite Hhome. }
  assert (Henv : main_environment w =
                 (checks ++ [Call (environment_setup "/home/pattoo/pattoo-venv")],
                  Ret {| pattoo_home := "/home/pattoo";
                         venv_dir := "/home/pattoo/pattoo-venv";
                         installation_dir :=
                           ("/home/pattoo/pattoo-venv/bin/python3" ++ " "
                            ++ ROOT_DIR w)%string |})).
  { rewrite (main_environment_not_travis w Hu), Hchecks, bind_Ret.
    rewrite Hvenv, Hhome. unfold invoke. rewrite Henvok. reflexivity. }
  assert (HP : Parser_args w =
               ([], Ret ({| action := Some "install";
                            qualifier := Some "configuration";
                            verbose := false |}, p_main))).
  { unfold Parser_args, _Parser_parse_args. rewrite Hargv. reflexivity. }
  assert (Hin : In "configuration" ["all"; "configuration"; "pip"; "systemd"])
    by (simpl; auto).
  pose proof (main_valid w _ _ _ "configuration" Henv HP eq_refl eq_refl Hin)
    as Hmain.
  assert (Hsteps : forall d v,
             spec_steps w d v "configuration"
             = [configure_install daemon_list (pattoo_home d)])
    by reflexivity.
  rewrite Hsteps in Hmain. simpl pattoo_home in Hmain.
  rewrite run_steps_all_return in Hmain
    by (intros c [<- | []]; exact Hcfgok).
  assert (Hmain' :
            main w =
              (checks ++ [Call (environment_setup "/home/pattoo/pattoo-venv");
                          printed "Installing configuration";
                          Call (configure_install daemon_list "/home/pattoo");
                          done], Ret tt)).
  { rewrite Hmain. simpl. now rewrite <- app_assoc. }
  split; [ exact Hmain' | ].
  rewrite Hmain'. simpl fst. rewrite calls_app, filter_app.
  pose proof (installation_checks_no_installer w is_configure_install) as Hpre.
  rewrite Hchecks in Hpre. simpl fst in Hpre. rewrite Hpre; [ reflexivity | ].
  intros c. destruct c; simpl; congruence.
Qed.

Lemma install_configuration_scenario_witness :
  main (root_world ["install"; "configuration"]) =
    ([] ++ [Call (environment_setup "/home/pattoo/pattoo-venv");
            printed "Installing configuration";
            Call (configure_install
                    ["pattoo_agent_linux_autonomousd";
                     "pattoo_agent_linux_spoked";
                     "pattoo_agent_linux_hubd"] "/home/pattoo");
            done],
     Ret tt).
Proof.
  assert (Hdb : forall e,
             In e (passwd (root_world ["install"; "configuration"])) ->
             pw_name e <> "pattoo").
  { simpl. intros e [<- | []]. discriminate. }
  apply (proj1 (install_configuration_scenario
                  (root_world ["install"; "configuration"])
                  "setup/linux_agent_installation.py" []
                  ltac:(discriminate) Hdb eq_refl eq_refl eq_refl eq_refl)).
Defined.

(** C3, as stated, fails for the user [travis]: lines 303-307 take the
    home directory from [os.path.expanduser('~')], and the configuration is
    written for ['/home/travis/pattoo']. *)
Lemma travis_configuration_home :
  (forall e,
     In e (passwd (travis_world ["install"; "configuration"])) ->
     pw_name e <> "pattoo")
  /\ sys_argv (travis_world ["install"; "configuration"]) =
       ["setup/linux_agent_installation.py"; "install"; "configuration"]
  /\ main (travis_world ["install"; "configuration"]) =
       ([printed "Installing configuration";
         Call (configure_install daemon_list "/home/travis/pattoo");
         done],
        Ret tt)
  /\ ~ In (Call (configure_install daemon_list "/home/pattoo"))
          (fst (main (travis_world ["install"; "configuration"]))).
Proof.
  split; [ | split; [ reflexivity | split; [ reflexivity | ] ] ].
  - simpl. intros e [<- | []]. discriminate.
  - simpl. intuition discriminate.
Qed.

(** ** The completion message *)

Lemma is_str_true (x : option string) (s : string) :
  is_str x s = true -> x = Some s.
Proof.
  destruct x as [y | ]; simpl; [ | discriminate ].
  intros H. apply String.eqb_eq in H. now subst.
Qed.

Lemma valid_qualifier_true (x : option string) :
  valid_qualifier x = true ->
  exists q, x = Some q /\ In q ["all"; "configuration"; "pip"; "systemd"].
Proof.
  unfold valid_qualifier. rewrite !orb_true_iff.
  intros [[[H | H] | H] | H]; apply is_str_true in H;
    eexists; (split; [ exact H | simpl; auto ]).
Qed.

Lemma announcement_not_done (q : string) : printed (announcement q) <> done.
Proof.
  unfold announcement.
  destruct (String.eqb q "all"); [ discriminate | ].
  destruct (String.eqb q "configuration"); [ discriminate | ].
  destruct (String.eqb q "pip"); discriminate.
Qed.

(** An element that ends a list and occurs nowhere before occurs only
    there. *)
Lemma last_occurrence {A} (front : list A) (x : A) (t1 t2 : list A) :
  ~ In x front ->
  front ++ [x] = t1 ++ x :: t2 ->
  t1 = front /\ t2 = [].
Proof.
  revert t1. induction front as [ | a front IH]; intros t1 Hnot Heq.
  - destruct t1 as [ | b t1]; simpl in Heq.
    + inversion Heq. auto.
    + inversion Heq as [[Hb Hnil]]. now destruct t1.
  - destruct t1 as [ | b t1]; simpl in Heq.
    + inversion Heq as [[Ha Hrest]]. destruct Hnot. now left.
    + inversion Heq as [[Hb Hrest]].
      destruct (IH t1) as [-> ->]; auto.
      intros Hin. apply Hnot. now right.
Qed.

(** The completion message in the trace of a run tells the whole run. *)
Lemma done_printed_inv (w : world) :
  In done (fst (main w)) ->
  exists pre d ns q,
    main_environment w = (pre, Ret d)
    /\ Parser_args w = ([], Ret (ns, p_main))
    /\ action ns = Some "install"
    /\ qualifier ns = Some q
    /\ In q ["all"; "configuration"; "pip"; "systemd"]
    /\ (forall c, In c (spec_steps w d (verbose ns) q) ->
                  collaborator w c = Ret tt)
    /\ main w =
         ((pre ++ printed (announcement q)
             :: map Call (spec_steps w d (verbose ns) q)) ++ [done],
          Ret tt)
    /\ ~ In done (pre ++ printed (announcement q)
                    :: map Call (spec_steps w d (verbose ns) q)).
Proof.
  intros Hdone.
  pose proof (main_environment_no_done w) as Hpre.
  destruct (main_environment w) as [pre [d | n | e]] eqn:Henv;
    [ | unfold main in Hdone; rewrite Henv in Hdone; now destruct Hpre
      | unfold main in Hdone; rewrite Henv in Hdone; now destruct Hpre ].
  simpl fst in Hpre.
  rewrite (main_after_environment w pre d Henv) in Hdone. simpl fst in Hdone.
  apply in_app_iff in Hdone. destruct Hdone as [Hdone | Hdone];
    [ now destruct Hpre | ].
  destruct (Parser_args_result w) as [[ns HP] | [n Hexit]].
  2:{ rewrite (main_cli_exit w d n Hexit) in Hdone. simpl fst in Hdone.
      apply Parser_args_events in Hdone.
      destruct Hdone as [f [t [Heq Hlit]]]. inversion Heq as [[Hf Ht]].
      now destruct (Hlit _ (eq_sym Ht)). }
  destruct (is_str (action ns) "install") eqn:Ha.
  2:{ rewrite (main_cli_other_action w d ns HP Ha) in Hdone.
      destruct Hdone. }
  destruct (valid_qualifier (qualifier ns)) eqn:Hv.
  2:{ rewrite (main_cli_no_qualifier w d ns HP Ha Hv) in Hdone.
      destruct Hdone as [Hdone | []]. discriminate Hdone. }
  apply is_str_true in Ha.
  apply valid_qualifier_true in Hv. destruct Hv as [q [Hq Hin]].
  pose proof (main_valid w pre d ns q Henv HP Ha Hq Hin) as Hmain.
  rewrite (main_cli_valid w d ns q HP Ha Hq Hin) in Hdone.
  simpl fst in Hdone.
  assert (Hfront : forall l,
             ~ In done (pre ++ printed (announcement q) :: map Call l)).
  { intros l Hx. apply in_app_iff in Hx.
    destruct Hx as [Hx | [Hx | Hx]].
    - now destruct Hpre.
    - now destruct (announcement_not_done q).
    - apply in_map_iff in Hx. destruct Hx as [c [Hx _]]. discriminate Hx. }
  destruct (snd (run_steps w (spec_steps w d (verbose ns) q)))
    as [[] | n | e] eqn:Hrun.
  - destruct (run_steps_returned w _ tt Hrun) as [Hfst Hall].
    rewrite Hfst in Hmain.
    exists pre, d, ns, q.
    repeat (split; [ first [ assumption | reflexivity ] | ]).
    split; [ | apply Hfront ].
    rewrite Hmain. now rewrite <- app_assoc.
  - rewrite app_nil_r in Hdone.
    destruct (Hfront (fst (run_steps w (spec_steps w d (verbose ns) q)))).
    apply in_app_iff. now right.
  - rewrite app_nil_r in Hdone.
    destruct (Hfront (fst (run_steps w (spec_steps w d (verbose ns) q)))).
    apply in_app_iff. now right.
Qed.

(** C7: in every run, ['Done'] is printed only after every installation
    step of the selected qualifier has returned without error.  If it is
    printed, the command line selected one of the four qualifiers, every
    step of that qualifier was called and returned, and the message is the
    last effect of the run, after all of those calls; it is printed once,
    with no call after it; it is not printed in a run in which a call does
    not return; and it is not printed unless a valid qualifier was
    selected. *)
Theorem done_only_after_all_steps (w : world) :
  (In done (fst (main w)) ->
   exists pre d ns q,
     main_environment w = (pre, Ret d)
     /\ Parser_args w = ([], Ret (ns, p_main))
     /\ action ns = Some "install"
     /\ qualifier ns = Some q
     /\ In q ["all"; "configuration"; "pip"; "systemd"]
     /\ (forall c, In c (spec_steps w d (verbose ns) q) ->
                   collaborator w c = Ret tt)
     /\ main w =
          (pre ++ printed (announcement q)
             :: map Call (spec_steps w d (verbose ns) q) ++ [done],
           Ret tt))
  /\ (forall t1 t2,
        fst (main w) = t1 ++ done :: t2 -> t2 = [] /\ ~ In done t1)
  /\ (forall c,
        In (Call c) (fst (main w)) ->
        collaborator w c <> Ret tt ->
        ~ In done (fst (main w)))
  /\ (~ (exists ns q,
           Parser_args w = ([], Ret (ns, p_main))
           /\ action ns = Some "install"
           /\ qualifier ns = Some q
           /\ In q ["all"; "configuration"; "pip"; "systemd"]) ->
      ~ In done (fst (main w))).
Proof.
  split; [ | split; [ | split ] ].
  - intros Hdone.
    destruct (done_printed_inv w Hdone)
      as [pre [d [ns [q [H1 [H2 [H3 [H4 [H5 [H6 [H7 _]]]]]]]]]]].
    exists pre, d, ns, q. repeat (split; [ assumption | ]).
    rewrite H7. now rewrite <- app_assoc.
  - intros t1 t2 Heq.
    assert (Hdone : In done (fst (main w))).
    { rewrite Heq. apply in_app_iff. right. now left. }
    destruct (done_printed_inv w Hdone)
      as [pre [d [ns [q [_ [_ [_ [_ [_ [_ [H7 H8]]]]]]]]]]].
    rewrite H7 in Heq. simpl fst in Heq.
    destruct (last_occurrence _ _ _ _ H8 Heq) as [-> ->]. now split.
  - intros c Hc Hfail Hdone.
    destruct (done_printed_inv w Hdone)
      as [pre [d [ns [q [H1 [_ [_ [_ [_ [H6 [H7 _]]]]]]]]]]].
    rewrite H7 in Hc. simpl fst in Hc.
    rewrite !in_app_iff in Hc. destruct Hc as [[Hc | Hc] | Hc].
    + apply Hfail. exact (main_environment_calls_returned w pre d c H1 Hc).
    + destruct Hc as [Hc | Hc]; [ discriminate Hc | ].
      apply in_map_iff in Hc. destruct Hc as [c' [Hc' Hin]].
      inversion Hc'; subst c'. apply Hfail. now apply H6.
    + destruct Hc as [Hc | []]. discriminate Hc.
  - intros Hnone Hdone.
    destruct (done_printed_inv w Hdone)
      as [pre [d [ns [q [_ [H2 [H3 [H4 [H5 _]]]]]]]]].
    apply Hnone. now exists ns, q.
Qed.

Lemma done_only_after_all_steps_witness :
  ~ In done (fst (main (failing_pip_world ["install"; "all"]))).
Proof.
  apply (proj1 (proj2 (proj2 (done_only_after_all_steps
                                (failing_pip_world ["install"; "all"]))))
           (packages_install "/opt/pattoo-agent-linux"
                             "/opt/pattoo/pattoo-venv" false)).
  - simpl. auto 10.
  - discriminate.
Defined.

(** ** The command lines the parsers accept *)


















(** ** Failures of collaborators *)

Lemma fail_fast_quiet {A} (w : world) (m : M A) :
  (forall c, ~ In (Call c) (fst m)) -> fail_fast w m.
Proof.
  intros H. split.
  - intros c Hin. now destruct (H c).
  - intros a _ c Hin. now destruct (H c).
Qed.

Lemma fail_fast_ret {A} (w : world) (a : A) : fail_fast w (ret a).
Proof. apply fail_fast_quiet. intros c []. Qed.

Lemma fail_fast_exit {A} (w : world) (n : Z) : fail_fast w (@sys_exit A n).
Proof. apply fail_fast_quiet. intros c []. Qed.

Lemma fail_fast_raise {A} (w : world) (e : exception) :
  fail_fast w (@raise A e).
Proof. apply fail_fast_quiet. intros c []. Qed.

Lemma fail_fast_emit (w : world) (e : event) :
  (forall c, e <> Call c) -> fail_fast w (emit e).
Proof.
  intros H. apply fail_fast_quiet. intros c [Hin | []]. now destruct (H c).
Qed.

Lemma fail_fast_print (w : world) (s : string) : fail_fast w (print s).
Proof. apply fail_fast_emit. discriminate. Qed.

Lemma fail_fast_log (w : world) (s : string) : fail_fast w (shared_log s).
Proof. apply fail_fast_emit. discriminate. Qed.

Lemma fail_fast_print_help (w : world) (p : parser_id) (f : option stream) :
  fail_fast w (print_help p f).
Proof. apply fail_fast_emit. discriminate. Qed.

Lemma fail_fast_stderr_write (w : world) (t : text) :
  fail_fast w (stderr_write t).
Proof. apply fail_fast_emit. discriminate. Qed.

Lemma fail_fast_invoke (w : world) (c : call) : fail_fast w (invoke w c).
Proof.
  unfold invoke. split; simpl.
  - intros c' [Hin | []] Hfail. inversion Hin; subst c'. split.
    + now exists [].
    + destruct (collaborator w c) as [[] | n | e]; simpl; congruence.
  - intros [] Hret c' [Hin | []]. inversion Hin; subst c'. exact Hret.
Qed.

(** Sequencing keeps the property: this is where a failure ends the run. *)
Lemma fail_fast_bind {A B} (w : world) (m : M A) (k : A -> M B) :
  fail_fast w m -> (forall a, fail_fast w (k a)) -> fail_fast w (bind m k).
Proof.
  intros [Hm1 Hm2] Hk. destruct m as [t [a | n | e]].
  - rewrite bind_Ret. destruct (Hk a) as [Hk1 Hk2]. simpl in *. split.
    + intros c Hin Hfail. apply in_app_iff in Hin.
      destruct Hin as [Hin | Hin].
      * now destruct (Hfail (Hm2 a eq_refl c Hin)).
      * destruct (Hk1 c Hin Hfail) as [[t0 Ht0] Hsame]. split; [ | exact Hsame ].
        exists (t ++ t0). rewrite Ht0. apply app_assoc.
    + intros b Hret c Hin. apply in_app_iff in Hin.
      destruct Hin as [Hin | Hin]; [ now apply (Hm2 a) | now apply (Hk2 b) ].
  - simpl in *. split.
    + intros c Hin Hfail. exact (Hm1 c Hin Hfail).
    + discriminate.
  - simpl in *. split.
    + intros c Hin Hfail. exact (Hm1 c Hin Hfail).
    + discriminate.
Qed.

(** A handler keeps it when what it guards has no effect. *)
Lemma fail_fast_try {A} (w : world) (body handler : M A) (exn : exception) :
  fst body = [] -> fail_fast w handler ->
  fail_fast w (try_except body exn handler).
Proof.
  intros Hb Hh. destruct body as [t [a | n | e]]; simpl in Hb; subst t;
    unfold try_except.
  - apply fail_fast_quiet. intros c [].
  - apply fail_fast_quiet. intros c [].
  - destruct (exception_eqb e exn).
    + destruct handler as [t' r]. exact Hh.
    + apply fail_fast_quiet. intros c [].
Qed.

Lemma fail_fast_installation_checks (w : world) :
  fail_fast w (installation_checks w).
Proof.
  unfold installation_checks, when.
  destruct (negb (String.eqb (getuser w) "travis")); [ | apply fail_fast_ret ].
  apply fail_fast_bind;
    [ destruct (negb _); [ apply fail_fast_log | apply fail_fast_ret ] | ].
  intros _. apply fail_fast_bind;
    [ destruct (prefix _ _); [ apply fail_fast_log | apply fail_fast_ret ] | ].
  intros _. apply fail_fast_try.
  - unfold import_virtualenv. now destruct (virtualenv_importable w).
  - apply fail_fast_bind; [ apply fail_fast_print | ].
    intros _. apply fail_fast_invoke.
Qed.

Lemma fail_fast_main_environment (w : world) :
  fail_fast w (main_environment w).
Proof.
  unfold main_environment.
  apply fail_fast_bind; [ apply fail_fast_installation_checks | ].
  intros _. destruct (negb _); [ | apply fail_fast_ret ].
  rewrite get_pattoo_home_returns, ret_bind.
  apply fail_fast_bind; [ apply fail_fast_invoke | ].
  intros _. apply fail_fast_ret.
Qed.

Lemma fail_fast_Parser_args (w : world) : fail_fast w (Parser_args w).
Proof.
  apply fail_fast_quiet. intros c Hin.
  apply Parser_args_events in Hin. destruct Hin as [f [t [H _]]].
  discriminate H.
Qed.

Lemma fail_fast_main_cli (w : world) (d : directories) :
  fail_fast w (main_cli w d).
Proof.
  unfold main_cli.
  apply fail_fast_bind; [ apply fail_fast_Parser_args | ].
  intros [args parser].
  destruct (is_str (action args) "install"); [ | apply fail_fast_ret ].
  apply fail_fast_bind; [ | intros _; apply fail_fast_print ].
  repeat match goal with
         | |- fail_fast _ (if ?b then _ else _) => destruct b
         end;
    repeat first [ apply fail_fast_invoke
                 | apply fail_fast_print
                 | apply fail_fast_print_help
                 | apply fail_fast_exit
                 | apply fail_fast_bind; [ | intros _ ] ].
Qed.

Lemma same_failure_eq (r r' : result unit) : same_failure r r' -> r = r'.
Proof.
  destruct r as [[] | n | e], r' as [[] | n' | e']; simpl; intros H;
    congruence || contradiction.
Qed.

(** X2: [main] never catches, retries or hides the failure of a
    collaborator.  If a call made in a run does not return normally (it
    raises or exits), that call is the last effect of the run and the run
    ends exactly the way the call ended; and a run that ends normally has
    seen every one of its calls return. *)
Theorem main_propagates_failures (w : world) :
  (forall c,
     In (Call c) (fst (main w)) ->
     collaborator w c <> Ret tt ->
     (exists t, fst (main w) = t ++ [Call c])
     /\ snd (main w) = collaborator w c)
  /\ (snd (main w) = Ret tt ->
      forall c, In (Call c) (fst (main w)) -> collaborator w c = Ret tt).
Proof.
  assert (H : fail_fast w (main w)).
  { unfold main. apply fail_fast_bind.
    - apply fail_fast_main_environment.
    - intros d. apply fail_fast_main_cli. }
  destruct H as [H1 H2]. split.
  - intros c Hin Hfail. destruct (H1 c Hin Hfail) as [Ht Hsame].
    split; [ exact Ht | now apply same_failure_eq ].
  - intros Hret. exact (H2 tt Hret).
Qed.

Lemma main_propagates_failures_witness :
  snd (main (failing_pip_world ["install"; "all"])) =
    Raise (OtherException "CalledProcessError").
Proof.
  apply (proj1 (main_propagates_failures
                  (failing_pip_world ["install"; "all"]))
           (packages_install "/opt/pattoo-agent-linux"
                             "/opt/pattoo/pattoo-venv" false)).
  - simpl. auto 10.
  - discriminate.
Defined.

(** ** How a run ends *)

Lemma run_steps_returns (w : world) (cs : list call) :
  (forall c, In c (fst (run_steps w cs)) -> collaborator w c = Ret tt) ->
  run_steps w cs = (cs, Ret tt).
Proof.
  induction cs as [ | c rest IH]; [ reflexivity | ].
  simpl. intros H.
  assert (Hc : collaborator w c = Ret tt).
  { apply H. destruct (collaborator w c); [ | now left | now left ].
    destruct (run_steps w rest). now left. }
  rewrite Hc in H |- *. rewrite IH; [ reflexivity | ].
  intros c' Hin. apply H. destruct (run_steps w rest). now right.
Qed.

Lemma main_cli_result (w : world) (d : directories) :
  (forall c, In (Call c) (fst (main_cli w d)) -> collaborator w c = Ret tt) ->
  snd (main_cli w d) = cli_result w.
Proof.
  unfold cli_result.
  destruct (Nat.eqb_spec (List.length (sys_argv w)) 1) as [Hlen | Hlen].
  - intros _. rewrite (main_cli_exit w d 1); [ reflexivity | ].
    unfold Parser_args. now rewrite (proj2 (Nat.eqb_eq _ _) Hlen).
  - assert (HP : Parser_args w =
                 (_args <- _Parser_parse_args w ;; ret (_args, p_main))).
    { unfold Parser_args. now rewrite (proj2 (Nat.eqb_neq _ _) Hlen). }
    unfold _Parser_parse_args in HP.
    destruct (parse_args w (tl (sys_argv w))) as [ns | p | p m].
    + rewrite ret_bind in HP. unfold ret in HP.
      destruct (is_str (action ns) "install") eqn:Ha.
      2:{ intros _. now rewrite (main_cli_other_action w d ns HP Ha). }
      destruct (valid_qualifier (qualifier ns)) eqn:Hv.
      2:{ intros _. now rewrite (main_cli_no_qualifier w d ns HP Ha Hv). }
      apply is_str_true in Ha. apply valid_qualifier_true in Hv.
      destruct Hv as [q [Hq Hin]].
      rewrite (main_cli_valid w d ns q HP Ha Hq Hin). simpl fst. simpl snd.
      intros H. rewrite run_steps_returns; [ reflexivity | ].
      intros c Hc. apply H. right. apply in_app_iff. left.
      now apply in_map.
    + intros _. rewrite (main_cli_exit w d 0); [ reflexivity | ].
      now rewrite HP.
    + intros _. rewrite (main_cli_exit w d 2); [ reflexivity | ].
      now rewrite HP.
Qed.

(** X3: the exit status of a run in which every call made returns.  Such a
    run never ends with an exception; it ends as the command line alone
    decides: status 1 when there is no argument or [install] comes without
    a valid qualifier, status 0 after the help action, status 2 after an
    error of argparse, and a normal return (status 0) otherwise. *)
Theorem main_exit_status (w : world) :
  (forall c, In (Call c) (fst (main w)) -> collaborator w c = Ret tt) ->
  snd (main w) = cli_result w
  /\ (forall e, snd (main w) <> Raise e)
  /\ (exit_status (snd (main w)) = 0%Z
      \/ exit_status (snd (main w)) = 1%Z
      \/ exit_status (snd (main w)) = 2%Z).
Proof.
  intros H.
  assert (Hres : snd (main w) = cli_result w).
  { destruct (main_environment_returns w) as [d Hd].
    - intros c Hin. apply H. unfold main.
      destruct (bind_trace (main_environment w) (fun d => main_cli w d))
        as [t Ht].
      rewrite Ht. apply in_app_iff. now left.
    - destruct (main_environment w) as [pre r] eqn:Henv. simpl in Hd.
      subst r. rewrite (main_after_environment w pre d Henv) in H |- *.
      simpl snd. apply main_cli_result. intros c Hin. apply H.
      simpl fst. apply in_app_iff. now right. }
  rewrite Hres. unfold cli_result.
  destruct (Nat.eqb _ 1); [ simpl; repeat split; auto; discriminate | ].
  destruct (parse_args w (tl (sys_argv w))) as [ns | p | p m];
    [ destruct (is_str _ _); [ destruct (valid_qualifier _) | ] | | ];
    simpl; repeat split; auto; discriminate.
Qed.

Lemma main_exit_status_witness :
  snd (main (alice_world false ["install"; "all"; "now"])) = Exit 2.
Proof.
  apply (main_exit_status (alice_world false ["install"; "all"; "now"])).
  intros c _. reflexivity.
Defined.

(** ** The order of the environment setup and the command line *)

Lemma split_after {A} (pre s t1 t2 : list A) (e : A) :
  pre ++ s = t1 ++ e :: t2 -> ~ In e pre -> exists t, t1 = pre ++ t.
Proof.
  revert t1. induction pre as [ | a pre IH]; intros t1 Heq Hnot.
  - now exists t1.
  - destruct t1 as [ | b t1]; simpl in Heq; inversion Heq as [[Ha Hrest]].
    + destruct Hnot. now left.
    + destruct (IH t1 Hrest) as [t ->].
      * intros Hin. apply Hnot. now right.
      * now exists t.
Qed.

Lemma main_environment_setup_called (w : world) (pre : list event)
  (d : directories) :
  getuser w <> "travis" ->
  main_environment w = (pre, Ret d) ->
  In (Call (environment_setup (venv_of w))) pre.
Proof.
  intros Ht. rewrite (main_environment_not_travis w Ht).
  intros H. apply bind_returns in H.
  destruct H as [t1 [[] [t2 [_ [H2 ->]]]]].
  apply bind_returns in H2. destruct H2 as [t3 [[] [t4 [H3 [_ ->]]]]].
  unfold invoke in H3. inversion H3.
  rewrite !in_app_iff. right. left. now left.
Qed.

(** X4: for every invoking user other than travis, the virtual environment
    is set up before the command line is looked at.  Whatever the arguments
    are, every help text and every error banner a run writes, and every
    installation step it calls, comes after the call of
    [environment.environment_setup] for [<home>/pattoo-venv]: a usage error
    or a request for help is answered only after that call has been made
    and has returned. *)
Theorem environment_setup_before_command_line (w : world) :
  getuser w <> "travis" ->
  forall t1 e t2,
    fst (main w) = t1 ++ e :: t2 ->
    ((exists f x, e = Output f x /\ forall s, x <> Lit s)
     \/ (exists c, e = Call c /\ is_installer c = true)) ->
    In (Call (environment_setup (venv_of w))) t1
    /\ collaborator w (environment_setup (venv_of w)) = Ret tt.
Proof.
  intros Ht t1 e t2 Heq He.
  assert (Hnot : ~ In e (fst (main_environment w))).
  { intros Hin. apply main_environment_events in Hin.
    destruct He as [[f [x [-> Hx]]] | [c [-> Hc]]].
    - destruct Hin as [[m H] | [H | [H | H]]]; try discriminate H.
      inversion H as [[Hf Hlit]]. now destruct (Hx _ Hlit).
    - destruct Hin as [[m H] | [H | [H | H]]]; try discriminate H;
        inversion H; subst c; discriminate Hc. }
  destruct (main_environment w) as [pre [d | n | x]] eqn:Henv.
  - rewrite (main_after_environment w pre d Henv) in Heq. simpl fst in *.
    destruct (split_after _ _ _ _ _ Heq Hnot) as [t ->].
    pose proof (main_environment_setup_called w pre d Ht Henv) as Hin.
    split; [ apply in_app_iff; now left | ].
    exact (main_environment_calls_returned w pre d _ Henv Hin).
  - unfold main in Heq. rewrite Henv in Heq. simpl in Heq, Hnot.
    destruct Hnot. rewrite Heq. apply in_app_iff. right. now left.
  - unfold main in Heq. rewrite Henv in Heq. simpl in Heq, Hnot.
    destruct Hnot. rewrite Heq. apply in_app_iff. right. now left.
Qed.

Lemma environment_setup_before_command_line_witness :
  In (Call (environment_setup "/home/pattoo/pattoo-venv"))
     [Log msg_not_root; Log msg_home_directory;
      Call (environment_setup "/home/pattoo/pattoo-venv")]
  /\ collaborator (alice_world true ["--help"])
       (environment_setup "/home/pattoo/pattoo-venv") = Ret tt.
Proof.
  apply (environment_setup_before_command_line
           (alice_world true ["--help"])
           ltac:(discriminate)
           [Log msg_not_root; Log msg_home_directory;
            Call (environment_setup "/home/pattoo/pattoo-venv")]
           (Output stdout (HelpText p_main)) [] eq_refl).
  left. exists stdout, (HelpText p_main). split; [ reflexivity | discriminate ].
Defined.

(** ** The steps of each qualifier *)

(** X5: the branch of every qualifier.  In a run parsed as [install q] for
    one of the four qualifiers, the installation steps called are an
    initial part of the steps of [q] ([all]: configuration, packages,
    units; [configuration], [pip], [systemd]: that one step), in order and
    with the arguments computed before the command line; no other
    installation step is called; and the run returns, with ['Done'] as its
    last effect, exactly when all the steps of [q] return. *)
Theorem qualifier_steps (w : world) (pre : list event) (d : directories)
  (ns : Namespace) (q : string) :
  main_environment w = (pre, Ret d) ->
  Parser_args w = ([], Ret (ns, p_main)) ->
  action ns = Some "install" ->
  qualifier ns = Some q ->
  In q ["all"; "configuration"; "pip"; "systemd"] ->
  (exists k, installer_calls (fst (main w)) =
               firstn k (spec_steps w d (verbose ns) q) /\ 1 <= k)
  /\ ((forall c, In c (spec_steps w d (verbose ns) q) ->
                 collaborator w c = Ret tt)
      <-> snd (main w) = Ret tt)
  /\ (snd (main w) = Ret tt ->
      main w = (pre ++ printed (announcement q)
                  :: map Call (spec_steps w d (verbose ns) q) ++ [done],
                Ret tt)).
Proof.
  intros Henv HP Ha Hq Hin.
  pose proof (main_valid w pre d ns q Henv HP Ha Hq Hin) as Hmain.
  assert (Hne : spec_steps w d (verbose ns) q <> []).
  { simpl in Hin. destruct Hin as [<- | [<- | [<- | [<- | []]]]];
      discriminate. }
  assert (Hinst : forall l,
             (forall c, In c l ->
                        In c (spec_steps w d (verbose ns) q)) ->
             filter is_installer l = l).
  { intros l Hl. induction l as [ | c l IH]; [ reflexivity | ].
    simpl. assert (Hc : is_installer c = true).
    { specialize (Hl c (or_introl eq_refl)). unfold spec_steps in Hl.
      destruct (String.eqb q "all"); [ | destruct (String.eqb q "configuration");
        [ | destruct (String.eqb q "pip");
            [ | destruct (String.eqb q "systemd") ] ] ];
        simpl in Hl; intuition (subst; reflexivity). }
    rewrite Hc, IH; [ reflexivity | ]. intros c' Hc'. apply Hl. now right. }
  split; [ | split ].
  - destruct (run_steps_prefix w (spec_steps w d (verbose ns) q))
      as [k [Hk Hpos]].
    exists k. split; [ | now apply Hpos ].
    rewrite Hmain. simpl fst. rewrite installer_calls_app.
    pose proof (main_environment_no_installer w) as Hpre.
    rewrite Henv in Hpre. simpl fst in Hpre. rewrite Hpre. simpl app.
    unfold installer_calls. rewrite calls_of_steps, Hk.
    apply Hinst. intros c Hc.
    rewrite <- (firstn_skipn k (spec_steps w d (verbose ns) q)).
    apply in_app_iff. now left.
  - rewrite Hmain. simpl snd. split.
    + intros Hall. now rewrite (run_steps_all_return w _ Hall).
    + intros Hret. exact (proj2 (run_steps_returned w _ tt Hret)).
  - intros Hret. rewrite Hmain in Hret |- *. simpl snd in Hret.
    destruct (run_steps_returned w _ tt Hret) as [Hfst _].
    now rewrite Hfst, Hret.
Qed.

Lemma qualifier_steps_witness :
  snd (main (root_world ["install"; "systemd"])) = Ret tt.
Proof.
  apply (proj1 (proj1 (proj2
           (qualifier_steps
              (root_world ["install"; "systemd"])
              [Call (environment_setup "/home/pattoo/pattoo-venv")]
              {| pattoo_home := "/home/pattoo";
                 venv_dir := "/home/pattoo/pattoo-venv";
                 installation_dir :=
                   "/home/pattoo/pattoo-venv/bin/python3 /opt/pattoo-agent-linux"
              |}
              {| action := Some "install"; qualifier := Some "systemd";
                 verbose := false |}
              "systemd" eq_refl eq_refl eq_refl eq_refl
              ltac:(simpl; auto 6))))).
  intros c _. reflexivity.
Defined.

(** ** The run of the CI account *)






(** ** More on the checks and the home directory *)

(** X7: [get_pattoo_home] never returns ['/nonexistent']: for every user
    database it returns, without any effect, a home that is either the
    default ['/home/pattoo'] or the home directory of an entry named
    [pattoo]. *)
Theorem get_pattoo_home_never_nonexistent (w : world) :
  exists home,
    get_pattoo_home w = ([], Ret home)
    /\ home <> "/nonexistent"
    /\ (home = "/home/pattoo"
        \/ exists e, In e (passwd w) /\ pw_name e = "pattoo"
                     /\ pw_dir e = home).
Proof.
  exists (resolved_home w). split; [ apply get_pattoo_home_returns | ].
  unfold resolved_home.
  destruct (find _ (passwd w)) as [e | ] eqn:F.
  - destruct (String.eqb_spec (pw_dir e) "/nonexistent") as [He | He].
    + split; [ discriminate | now left ].
    + split; [ exact He | ]. right. exists e.
      apply find_some in F. destruct F as [Hin Hname].
      apply String.eqb_eq in Hname. auto.
  - split; [ discriminate | now left ].
Qed.

(** X8: which check reports what.  The message about root is logged
    exactly for users other than travis and root; the message about the
    home directory exactly when the user is not travis and the working
    directory begins with the characters [/home]; and
    [pip3 install virtualenv] is run exactly when the user is not travis
    and virtualenv cannot be imported.  The three checks do not depend on
    each other. *)
Theorem installation_checks_reports (w : world) :
  (In (Log msg_not_root) (fst (installation_checks w)) <->
   getuser w <> "travis" /\ getuser w <> "root")
  /\ (In (Log msg_home_directory) (fst (installation_checks w)) <->
      getuser w <> "travis" /\ prefix "/home" (getcwd w) = true)
  /\ (In (Call (pip3_install_virtualenv w)) (fst (installation_checks w)) <->
      getuser w <> "travis" /\ virtualenv_importable w = false).
Proof.
  destruct (String.eqb_spec (getuser w) "travis") as [Ht | Ht].
  - rewrite (checks_skipped_for_travis w Ht). simpl. tauto.
  - rewrite (installation_checks_not_travis w Ht). simpl fst.
    unfold precondition_logs.
    destruct (String.eqb_spec (getuser w) "root") as [Hr | Hr];
      destruct (prefix "/home" (getcwd w));
      destruct (virtualenv_importable w) eqn:V;
      rewrite ?(virtualenv_check_importable w V),
              ?(virtualenv_check_missing w V);
      simpl; repeat split; intros;
      repeat match goal with
             | H : _ /\ _ |- _ => destruct H
             | H : _ \/ _ |- _ => destruct H
             | H : False |- _ => destruct H
             end;
      try congruence; try discriminate; auto 6.
Qed.

Lemma installation_checks_reports_witness :
  In (Log msg_home_directory)
     (fst (installation_checks
             {| sys_argv := ["setup/linux_agent_installation.py"];
                getuser := "root";
                getcwd := "/homework/pattoo-agent-linux";
                passwd := [];
                expanduser := "/root";
                virtualenv_importable := true;
                ROOT_DIR := "/homework/pattoo-agent-linux";
                collaborator := returns;
                argparse_other := no_other |})).
Proof.
  apply (proj1 (proj2 (installation_checks_reports
                         {| sys_argv := ["setup/linux_agent_installation.py"];
                            getuser := "root";
                            getcwd := "/homework/pattoo-agent-linux";
                            passwd := [];
                            expanduser := "/root";
                            virtualenv_importable := true;
                            ROOT_DIR := "/homework/pattoo-agent-linux";
                            collaborator := returns;
                            argparse_other := no_other |}))).
  split; [ discriminate | reflexivity ].
Defined.

(** ** Setting up the python path *)

(** X9: the statements that set up the python path.  From a directory that
    does not end in [/pattoo-agent-linux/setup] the script only prints its
    complaint and exits with status 2, leaving [sys.path] and the
    environment alone.  From such a directory it writes nothing, appends
    the root directory at the end of [sys.path], and leaves every
    environment variable that is set as it is, [PATTOO_CONFIGDIR]
    included; only an unset [PATTOO_CONFIGDIR] becomes [/etc/pattoo]. *)
Theorem python_path_setup_spec (EXEC_DIR ROOT_DIR : string)
  (st : module_state) :
  (endswith EXEC_DIR _EXPECTED = false ->
   python_path_setup EXEC_DIR ROOT_DIR st =
     ([printed msg_wrong_directory], Exit 2))
  /\ (endswith EXEC_DIR _EXPECTED = true ->
      exists st',
        python_path_setup EXEC_DIR ROOT_DIR st = ([], Ret st')
        /\ sys_path st' = sys_path st ++ [ROOT_DIR]
        /\ (forall k v, environ st k = Some v -> environ st' k = Some v)
        /\ (forall k, k <> "PATTOO_CONFIGDIR" ->
                      environ st' k = environ st k)
        /\ (environ st "PATTOO_CONFIGDIR" = None ->
            environ st' "PATTOO_CONFIGDIR" = Some "/etc/pattoo")).
Proof.
  unfold python_path_setup. split; intros ->; [ reflexivity | ].
  unfold environ_get. simpl environ.
  destruct (environ st "PATTOO_CONFIGDIR") as [value | ] eqn:E.
  - eexists. split; [ reflexivity | ]. simpl.
    repeat split; auto. congruence.
  - eexists. split; [ reflexivity | ]. simpl. unfold environ_set.
    repeat split.
    + intros k v Hk.
      destruct (String.eqb_spec k "PATTOO_CONFIGDIR") as [-> | _];
        congruence.
    + intros k Hk. now rewrite (eqb_neq_false _ _ Hk).
Qed.

Lemma python_path_setup_spec_witness :
  python_path_setup "/tmp/setup" "/tmp"
    {| sys_path := ["/tmp/setup"]; environ := fun _ => None |} =
    ([printed msg_wrong_directory], Exit 2)
  /\ exists st',
       python_path_setup "/opt/pattoo-agent-linux/setup"
         "/opt/pattoo-agent-linux"
         {| sys_path := ["/opt/pattoo-agent-linux/setup"];
            environ := fun k => if String.eqb k "PATTOO_CONFIGDIR"
                                then Some "/srv/pattoo" else None |}
       = ([], Ret st')
       /\ environ st' "PATTOO_CONFIGDIR" = Some "/srv/pattoo".
Proof.
  split.
  - apply (proj1 (python_path_setup_spec "/tmp/setup" "/tmp"
                    {| sys_path := ["/tmp/setup"];
                       environ := fun _ => None |})).
    reflexivity.
  - destruct (proj2 (python_path_setup_spec
                       "/opt/pattoo-agent-linux/setup"
                       "/opt/pattoo-agent-linux"
                       {| sys_path := ["/opt/pattoo-agent-linux/setup"];
                          environ := fun k =>
                                       if String.eqb k "PATTOO_CONFIGDIR"
                                       then Some "/srv/pattoo" else None |})
                eq_refl)
      as [st' [H1 [_ [H3 _]]]].
    exists st'. split; [ exact H1 | ]. apply H3. reflexivity.
Defined.

(** ** The registration of the qualifiers *)

(** X10: the reflective registration of [_Install.__init__] gives exactly
    the four qualifiers the parser has.  Whatever attributes with a
    leading underscore the object has, methods or not, none of them is
    called; the attribute [subparsers], which is no method, is skipped; and
    the four public methods are called in alphabetical order, which adds
    [all] and [pip] with the flag [--verbose] and [configuration] and
    [systemd] without it. *)
Theorem Install_init_registers (private : list (string * attribute)) :
  Forall (fun na => prefix "_" (fst na) = true) private ->
  _Install_init (private ++ _Install_public) =
    map (fun np => {| parser_name := fst np;
                      declares_verbose := has_verbose (snd np) |})
        (subparsers p_install).
Proof.
  intros H. unfold _Install_init. rewrite flat_map_app.
  assert (Hp : flat_map
                 (fun na =>
                    match snd na with
                    | a_method adds => if prefix "_" (fst na) then [] else [adds]
                    | a_value => []
                    end) private = []).
  { induction H as [ | [n a] l Hn _ IH]; [ reflexivity | ].
    simpl in *. rewrite Hn, IH. now destruct a. }
  rewrite Hp. reflexivity.
Qed.

Lemma Install_init_registers_witness :
  _Install_init
    ([("__init__", a_method {| parser_name := "install";
                               declares_verbose := false |});
      ("__module__", a_value)] ++ _Install_public) =
    [{| parser_name := "all"; declares_verbose := true |};
     {| parser_name := "configuration"; declares_verbose := false |};
     {| parser_name := "pip"; declares_verbose := true |};
     {| parser_name := "systemd"; declares_verbose := false |}].
Proof.
  apply (Install_init_registers
           [("__init__", a_method {| parser_name := "install";
                                     declares_verbose := false |});
            ("__module__", a_value)]).
  repeat constructor.
Defined.

(** ** Command lines that are not carried out *)

Lemma main_on_exit (w : world) (n : Z) :
  snd (Parser_args w) = Exit n ->
  installer_calls (fst (main w)) = []
  /\ ~ In done (fst (main w))
  /\ forall pre d,
       main_environment w = (pre, Ret d) ->
       main w = (pre ++ fst (Parser_args w), Exit n).
Proof.
  intros Hexit.
  assert (Hcli : forall d, main_cli w d = (fst (Parser_args w), Exit n)).
  { intros d. now apply main_cli_exit. }
  assert (Hq : installer_calls (fst (Parser_args w)) = []).
  { apply no_installer_calls. intros c Hin.
    apply Parser_args_events in Hin. destruct Hin as [f [t [H _]]].
    discriminate H. }
  pose proof (main_environment_no_installer w) as Hpre.
  pose proof (main_environment_no_done w) as Hnd.
  destruct (main_environment w) as [pre [d | m | e]] eqn:Henv.
  - rewrite (main_after_environment w pre d Henv), Hcli. simpl fst in *.
    split; [ now rewrite installer_calls_app, Hpre, Hq | split ].
    + intros Hin. apply in_app_iff in Hin. destruct Hin as [Hin | Hin];
        [ now destruct Hnd | ].
      apply Parser_args_events in Hin. destruct Hin as [f [t [H Hlit]]].
      inversion H as [[Hf Ht]]. now destruct (Hlit _ (eq_sym Ht)).
    + intros pre' d' H. inversion H. reflexivity.
  - unfold main. rewrite Henv. simpl. repeat split; auto. discriminate.
  - unfold main. rewrite Henv. simpl. repeat split; auto. discriminate.
Qed.

(** X11: a command line that is not accepted installs nothing.  Whenever
    [Parser.args] ends the run (no argument, the help action, an error of
    argparse), no installation step is called and ['Done'] is not printed;
    if the checks and the environment setup returned, the run consists of
    their effects and what the parser wrote, and ends with the status of
    the parser. *)
Theorem rejected_command_line_installs_nothing (w : world) (n : Z) :
  snd (Parser_args w) = Exit n ->
  installer_calls (fst (main w)) = []
  /\ ~ In done (fst (main w))
  /\ forall pre d,
       main_environment w = (pre, Ret d) ->
       main w = (pre ++ fst (Parser_args w), Exit n).
Proof. apply main_on_exit. Qed.

Lemma rejected_command_line_installs_nothing_witness :
  installer_calls
    (fst (main (root_world ["install"; "all"; "--verbose"; "now"]))) = [].
Proof.
  apply (rejected_command_line_installs_nothing
           (root_world ["install"; "all"; "--verbose"; "now"]) 2).
  reflexivity.
Defined.





